(** * BookingCalendar: a shallow embedding of [src/components/BookingCalendar.tsx]

    The component keeps eight pieces of React state and three asynchronous
    handlers ([loadTimeSlots], [handleCabinSelect], [handleBooking]) plus the
    pure helper [formatDateTimeForWebhook].  A handler is embedded as a
    computation that reads the state captured by the render that created it
    and produces the chronological list of effects it performs (state setter
    calls and calls to the outside world), together with its completion.  The
    state after a handler is the state before it with the setter calls applied
    in order.

    Platform functions the component calls ([Date], [parseInt],
    [String.prototype.split], [toLocaleString], date-fns [format]) are
    embedded after the ECMAScript abstract operations they are specified by. *)

From Stdlib Require Import ZArith String Ascii List Bool Lia DecimalString.
Import ListNotations.

Open Scope string_scope.
Open Scope Z_scope.

(** ** Bounded checks *)

(** [P] holds at [lo], [lo + 1], ..., [lo + n - 1]. *)
Fixpoint all_from (P : Z -> bool) (lo : Z) (n : nat) : bool :=
  match n with
  | O => true
  | S k => P lo && all_from P (lo + 1) k
  end.

(** ** JavaScript strings *)

Module JSString.

(** [!s] for a string [s]: only the empty string is falsy. *)
Definition falsy (s : string) : bool :=
  match s with
  | EmptyString => true
  | String _ _ => false
  end.

(** [a || b] on strings. *)
Definition or_else (a b : string) : string :=
  if falsy a then b else a.

(** [s.split(sep)] for a one-character separator. *)
Fixpoint split (sep : ascii) (s : string) : list string :=
  match s with
  | EmptyString => [EmptyString]
  | String c rest =>
      if Ascii.eqb c sep then EmptyString :: split sep rest
      else match split sep rest with
           | [] => [String c EmptyString]
           | hd :: tl => String c hd :: tl
           end
  end.

(** [s.replace(pat, by)] for a one-character string pattern: only the first
    occurrence is replaced. *)
Fixpoint replace (pat by_ : ascii) (s : string) : string :=
  match s with
  | EmptyString => EmptyString
  | String c rest =>
      if Ascii.eqb c pat then String by_ rest
      else String c (replace pat by_ rest)
  end.

Definition is_digit (c : ascii) : bool :=
  let n := N_of_ascii c in (48 <=? n)%N && (n <=? 57)%N.

Definition digit_value (c : ascii) : Z := Z.of_N (N_of_ascii c) - 48.

(** Strings are held as their UTF-8 bytes.  The white space [parseInt]
    skips is StrWhiteSpaceChar: TAB, LF, VT, FF, CR and SP in one byte;
    U+00A0 in two; and in three bytes U+1680, U+2000 to U+200A, U+2028,
    U+2029, U+202F, U+205F, U+3000 and U+FEFF. *)
Definition is_space (c : ascii) : bool :=
  let n := N_of_ascii c in
  (n =? 32)%N || ((9 <=? n)%N && (n <=? 13)%N).

Definition is_space2 (c1 c2 : ascii) : bool :=
  (N_of_ascii c1 =? 194)%N && (N_of_ascii c2 =? 160)%N.

Definition is_space3 (c1 c2 c3 : ascii) : bool :=
  let n1 := N_of_ascii c1 in
  let n2 := N_of_ascii c2 in
  let n3 := N_of_ascii c3 in
  ((n1 =? 225) && (n2 =? 154) && (n3 =? 128))%N
  || ((n1 =? 226) && (n2 =? 128)
      && (((128 <=? n3) && (n3 <=? 138))
          || (n3 =? 168) || (n3 =? 169) || (n3 =? 175)))%N
  || ((n1 =? 226) && (n2 =? 129) && (n3 =? 159))%N
  || ((n1 =? 227) && (n2 =? 128) && (n3 =? 128))%N
  || ((n1 =? 239) && (n2 =? 187) && (n3 =? 191))%N.

Fixpoint skip_space (s : string) : string :=
  match s with
  | String c1 rest1 =>
      if is_space c1 then skip_space rest1
      else match rest1 with
           | String c2 rest2 =>
               if is_space2 c1 c2 then skip_space rest2
               else match rest2 with
                    | String c3 rest3 =>
                        if is_space3 c1 c2 c3 then skip_space rest3 else s
                    | EmptyString => s
                    end
           | EmptyString => s
           end
  | EmptyString => s
  end.

(** The longest prefix of decimal digits, read as a number; [None] when the
    prefix is empty. *)
Fixpoint digits_prefix (acc : option Z) (s : string) : option Z :=
  match s with
  | String c rest =>
      if is_digit c
      then digits_prefix
             (Some (10 * (match acc with Some a => a | None => 0 end)
                    + digit_value c)) rest
      else acc
  | EmptyString => acc
  end.

(** [parseInt(x, 10)]; [None] stands for [NaN].  The argument is [None] for
    [undefined], whose string conversion has no digits. *)
Definition parseInt10 (x : option string) : option Z :=
  match x with
  | None => None
  | Some s =>
      match skip_space s with
      | String "-" rest => option_map Z.opp (digits_prefix None rest)
      | String "+" rest => digits_prefix None rest
      | t => digits_prefix None t
      end
  end.

Definition digit (z : Z) : ascii := ascii_of_N (Z.to_N (48 + z mod 10)).

(** A number printed in decimal. *)
Definition decimal (z : Z) : string :=
  if z <? 0
  then String "-" (NilZero.string_of_uint (N.to_uint (Z.to_N (- z))))
  else NilZero.string_of_uint (N.to_uint (Z.to_N z)).

(** [String(z).padStart(2, '0')] for [0 <= z < 100]. *)
Definition pad2 (z : Z) : string :=
  String (digit (z / 10)) (String (digit z) EmptyString).

Fixpoint zeros (n : nat) : string :=
  match n with
  | O => EmptyString
  | S k => String "0" (zeros k)
  end.

(** date-fns [addLeadingZeros(n, len)]: sign, then the absolute value padded
    with zeros to [len] digits. *)
Definition addLeadingZeros (z : Z) (len : nat) : string :=
  let body := NilZero.string_of_uint (N.to_uint (Z.to_N (Z.abs z))) in
  let padded := zeros (len - String.length body) ++ body in
  if z <? 0 then String "-" padded else padded.

(** No character of [s] is a space. *)
Fixpoint no_space (s : string) : bool :=
  match s with
  | EmptyString => true
  | String c rest => negb (Ascii.eqb c " ") && no_space rest
  end.

End JSString.

(** ** ECMAScript time values *)

Module JSDate.

(** A [Date] holds a time value: milliseconds since the epoch, or [NaN]
    (here [None]) for an invalid date. *)
Definition t : Type := option Z.

Definition msPerSecond : Z := 1000.
Definition msPerMinute : Z := 60000.
Definition msPerHour : Z := 3600000.
Definition msPerDay : Z := 86400000.

Definition Day (tv : Z) : Z := tv / msPerDay.
Definition HourFromTime (tv : Z) : Z := (tv / msPerHour) mod 24.
Definition MinFromTime (tv : Z) : Z := (tv / msPerMinute) mod 60.
Definition SecFromTime (tv : Z) : Z := (tv / msPerSecond) mod 60.
Definition msFromTime (tv : Z) : Z := tv mod msPerSecond.
(** Day of the week of a day number, 0 for Sunday (day 0 is a Thursday). *)
Definition WeekDayOfDay (day : Z) : Z := (day + 4) mod 7.

Definition MakeTime (hour min sec ms : Z) : Z :=
  hour * msPerHour + min * msPerMinute + sec * msPerSecond + ms.
Definition MakeDate (day time : Z) : Z := day * msPerDay + time.

Definition TimeClip (tv : Z) : t :=
  if Z.abs tv <=? 8640000000000000 then Some tv else None.

(** Day number of a proleptic Gregorian date (month 1..12), and back. *)
Definition days_from_civil (y m d : Z) : Z :=
  let y' := if m <=? 2 then y - 1 else y in
  let era := y' / 400 in
  let yoe := y' - era * 400 in
  let mp := if 2 <? m then m - 3 else m + 9 in
  let doy := (153 * mp + 2) / 5 + d - 1 in
  let doe := yoe * 365 + yoe / 4 - yoe / 100 + doy in
  era * 146097 + doe - 719468.

Definition civil_from_days (z : Z) : Z * Z * Z :=
  let z' := z + 719468 in
  let era := z' / 146097 in
  let doe := z' - era * 146097 in
  let yoe := (doe - doe / 1460 + doe / 36524 - doe / 146096) / 365 in
  let doy := doe - (365 * yoe + yoe / 4 - yoe / 100) in
  let mp := (5 * doy + 2) / 153 in
  let d := doy - (153 * mp + 2) / 5 + 1 in
  let m := if mp <? 10 then mp + 3 else mp - 9 in
  ((if m <=? 2 then yoe + era * 400 + 1 else yoe + era * 400), m, d).

Definition YearFromTime (tv : Z) : Z := fst (fst (civil_from_days (Day tv))).
(** Month as 1..12 (ECMAScript's MonthFromTime plus one). *)
Definition MonthNumberFromTime (tv : Z) : Z := snd (fst (civil_from_days (Day tv))).
Definition DateFromTime (tv : Z) : Z := snd (civil_from_days (Day tv)).

(** A time zone is its [LocalTZA(t, isUTC)]: the offset in milliseconds of
    local time from UTC, at the UTC time value [t] when [isUTC] and at the
    local time value [t] otherwise. *)
Definition TimeZone : Type := Z -> bool -> Z.

Definition LocalTime (tz : TimeZone) (tv : Z) : Z := tv + tz tv true.
Definition UTC (tz : TimeZone) (tv : Z) : Z := tv - tz tv false.

Definition fixed_offset (minutes : Z) : TimeZone :=
  fun _ _ => minutes * msPerMinute.

(** Europe/Vilnius from the year 2000 on: UTC+2 throughout 2000 to 2002,
    and since 2003 UTC+2 with UTC+3 from 01:00 UTC on the last Sunday of
    March to 01:00 UTC on the last Sunday of October.  The zone's earlier
    history is not modelled: what is stated about this zone is stated for
    instants from [since_2000] on. *)
Definition since_2000 : Z := 946684800000.
Definition since_2003 : Z := 1041379200000.

Definition last_sunday (y m last : Z) : Z :=
  let d := days_from_civil y m last in d - WeekDayOfDay d.

Definition Europe_Vilnius_utc (tv : Z) : Z :=
  let y := YearFromTime tv in
  if (since_2003 <=? tv)
     && (last_sunday y 3 31 * msPerDay + msPerHour <=? tv)
     && (tv <? last_sunday y 10 31 * msPerDay + msPerHour)
  then 3 * msPerHour else 2 * msPerHour.

(** A local time that is skipped or repeated at a transition is read with
    the offset in force before the transition. *)
Definition Europe_Vilnius : TimeZone :=
  fun tv isUTC =>
    if isUTC then Europe_Vilnius_utc tv
    else if Europe_Vilnius_utc (tv - 3 * msPerHour) =? 3 * msPerHour
         then 3 * msPerHour else 2 * msPerHour.

Section Local.
(** The time zone of the browser the component runs in. *)
Variable localTZ : TimeZone.

(** [new Date(date)] for a [Date] argument copies its time value. *)
Definition copy (d : t) : t := d.

(** [d.setHours(hour)]. *)
Definition setHours (d : t) (hour : option Z) : t :=
  match d, hour with
  | Some tv, Some h =>
      let lt := LocalTime localTZ tv in
      TimeClip (UTC localTZ
        (MakeDate (Day lt)
           (MakeTime h (MinFromTime lt) (SecFromTime lt) (msFromTime lt))))
  | _, _ => None
  end.

(** [d.setMinutes(min)]. *)
Definition setMinutes (d : t) (min : option Z) : t :=
  match d, min with
  | Some tv, Some m =>
      let lt := LocalTime localTZ tv in
      TimeClip (UTC localTZ
        (MakeDate (Day lt)
           (MakeTime (HourFromTime lt) m (SecFromTime lt) (msFromTime lt))))
  | _, _ => None
  end.

(** [d.setSeconds(sec)]. *)
Definition setSeconds (d : t) (sec : option Z) : t :=
  match d, sec with
  | Some tv, Some s =>
      let lt := LocalTime localTZ tv in
      TimeClip (UTC localTZ
        (MakeDate (Day lt)
           (MakeTime (HourFromTime lt) (MinFromTime lt) s (msFromTime lt))))
  | _, _ => None
  end.

(** The year the [y] tokens of date-fns print: the year of the era, so 1
    for the year 0 (1 BC). *)
Definition yearOfEra (y : Z) : Z := if 0 <? y then y else 1 - y.

(** date-fns [format(date, 'yyyy-MM-dd')]: the local calendar date; an
    invalid date makes it throw a RangeError. *)
Definition format_yyyy_MM_dd (d : t) : option string :=
  match d with
  | None => None
  | Some tv =>
      let lt := LocalTime localTZ tv in
      Some (JSString.addLeadingZeros (yearOfEra (YearFromTime lt)) 4 ++ "-"
            ++ JSString.pad2 (MonthNumberFromTime lt) ++ "-"
            ++ JSString.pad2 (DateFromTime lt))
  end.
End Local.

(** [d.toLocaleString('sv', { timeZone })]: the Swedish locale prints
    [y-MM-dd HH:mm:ss] in the requested zone. *)
Definition toLocaleString_sv (tz : TimeZone) (d : t) : string :=
  match d with
  | None => "Invalid Date"
  | Some tv =>
      let lt := LocalTime tz tv in
      JSString.decimal (YearFromTime lt) ++ "-"
      ++ JSString.pad2 (MonthNumberFromTime lt) ++ "-"
      ++ JSString.pad2 (DateFromTime lt) ++ " "
      ++ JSString.pad2 (HourFromTime lt) ++ ":"
      ++ JSString.pad2 (MinFromTime lt) ++ ":"
      ++ JSString.pad2 (SecFromTime lt)
  end.

(** Time values a [Date] can hold. *)
Definition in_range (tv : Z) : Prop := Z.abs tv <= 8640000000000000.

(** The local time value [x] exists in [tz] and is read back unchanged: it
    is not skipped by a transition. *)
Definition round_trips (tz : TimeZone) (x : Z) : Prop :=
  tz (UTC tz x) true = tz x false.

(** The local time value of [lt]'s day with the given time of day. *)
Definition at_time (lt hour min sec : Z) : Z :=
  MakeDate (Day lt) (MakeTime hour min sec (msFromTime lt)).

End JSDate.

(** ** Effects of a handler *)

(** Collaborator types ([../types/booking], [../config/cabins],
    [../context/AuthContext]), as the component uses them. *)
Record TimeSlot := { time : string; available : bool }.

Record Cabin := {
  id : string;
  name : string;
  description : string;
  pricePerMinute : Z  (* only rendered *)
}.

Record User := { uid : string }.

Record BookingFormData := {
  bd_cabin : string;
  bd_date : string;
  bd_time : string
}.

(** The argument of [createBooking]: the form data spread, plus three fields. *)
Record BookingRecord := {
  cabin : string;
  date : string;
  time_ : string;
  userId : string;
  userEmail : string;
  status : string
}.

(** The second argument of [fetch]; [body] is the object handed to
    [JSON.stringify], all of whose members are strings. *)
Record RequestInit := {
  method : string;
  headers : list (string * string);
  body : list (string * string)
}.

(** What [fetch] resolves to; the component never looks at it. *)
Record Response := { http_status : Z }.

(** A thrown value (or the reason of a rejected promise): an instance of
    [Error] with its [message], or anything else. *)
Inductive Thrown :=
| ErrorObject (message : string)
| OtherValue (shown : string).

Inductive Completion (A : Type) :=
| Normal (a : A)
| Throw (e : Thrown).
Arguments Normal {A} a.
Arguments Throw {A} e.

(** Everything a handler does that is visible outside it, in the order it
    does it. *)
Inductive Event :=
| PreventDefault
| SetSelectedDate (d : JSDate.t)
| SetSelectedCabin (s : string)
| SetSelectedTime (s : string)
| SetLoading (b : bool)
| SetTimeSlots (l : list TimeSlot)
| SetError (s : string)
| SetFullName (s : string)
| SetEmail (s : string)
| CallFetchAvailableTimeSlots (cabinId date : string)
| CallFetch (url : string) (init : RequestInit)
| CallCreateBooking (r : BookingRecord).

(** The calls that leave the browser. *)
Definition is_network (ev : Event) : bool :=
  match ev with
  | CallFetchAvailableTimeSlots _ _ | CallFetch _ _ | CallCreateBooking _ => true
  | _ => false
  end.

Definition is_set_loading (ev : Event) : bool :=
  match ev with
  | SetLoading _ => true
  | _ => false
  end.

(** A computation: the events performed, then how it completed. *)
Definition Action (A : Type) : Type := list Event * Completion A.

Definition trace {A} (m : Action A) : list Event := fst m.
Definition completion {A} (m : Action A) : Completion A := snd m.

Definition ret {A} (a : A) : Action A := ([], Normal a).

Definition bind {A B} (m : Action A) (k : A -> Action B) : Action B :=
  match m with
  | (tr, Normal a) => let (tr', r) := k a in ((tr ++ tr')%list, r)
  | (tr, Throw e) => (tr, Throw e)
  end.

Definition emit (ev : Event) : Action unit := ([ev], Normal tt).

(** [await] of a call to the outside: the call is made, and the promise
    settles the way the outside decides. *)
Definition await {A} (call : Event) (outcome : Completion A) : Action A :=
  ([call], outcome).

(** A pure function that may throw. *)
Definition lift {A} (r : Completion A) : Action A := ([], r).

(** [try { body } catch (err) { handler } finally { fin }]. *)
Definition try_catch_finally {A}
    (body : Action A) (handler : Thrown -> Action A) (fin : Action unit)
    : Action A :=
  let caught :=
    match body with
    | (tr, Normal a) => (tr, Normal a)
    | (tr, Throw e) => let (tr', r) := handler e in ((tr ++ tr')%list, r)
    end in
  match fin with
  | (tr'', Normal _) => ((fst caught ++ tr'')%list, snd caught)
  | (tr'', Throw e) => ((fst caught ++ tr'')%list, Throw e)
  end.

Declare Scope action_scope.
Delimit Scope action_scope with action.
Notation "x <- m ;; k" := (bind m (fun x => k))
  (at level 61, m at next level, right associativity) : action_scope.
Notation "m ;; k" := (bind m (fun _ => k))
  (at level 61, right associativity) : action_scope.

(** ** Component state *)

Record State := {
  selectedDate : JSDate.t;
  selectedCabin : string;
  selectedTime : string;
  loading : bool;
  timeSlots : list TimeSlot;
  error : string;
  fullName : string;
  email : string
}.

(** The [useState] initial values; [now] is [new Date()] at first render. *)
Definition initialState (now : JSDate.t) : State :=
  {| selectedDate := now; selectedCabin := ""; selectedTime := "";
     loading := false; timeSlots := []; error := "";
     fullName := ""; email := "" |}.

(** One setter call applied to the state; the other events leave it alone. *)
Definition apply_event (st : State) (ev : Event) : State :=
  match ev with
  | SetSelectedDate d =>
      {| selectedDate := d; selectedCabin := selectedCabin st;
         selectedTime := selectedTime st; loading := loading st;
         timeSlots := timeSlots st; error := error st;
         fullName := fullName st; email := email st |}
  | SetSelectedCabin s =>
      {| selectedDate := selectedDate st; selectedCabin := s;
         selectedTime := selectedTime st; loading := loading st;
         timeSlots := timeSlots st; error := error st;
         fullName := fullName st; email := email st |}
  | SetSelectedTime s =>
      {| selectedDate := selectedDate st; selectedCabin := selectedCabin st;
         selectedTime := s; loading := loading st;
         timeSlots := timeSlots st; error := error st;
         fullName := fullName st; email := email st |}
  | SetLoading b =>
      {| selectedDate := selectedDate st; selectedCabin := selectedCabin st;
         selectedTime := selectedTime st; loading := b;
         timeSlots := timeSlots st; error := error st;
         fullName := fullName st; email := email st |}
  | SetTimeSlots l =>
      {| selectedDate := selectedDate st; selectedCabin := selectedCabin st;
         selectedTime := selectedTime st; loading := loading st;
         timeSlots := l; error := error st;
         fullName := fullName st; email := email st |}
  | SetError s =>
      {| selectedDate := selectedDate st; selectedCabin := selectedCabin st;
         selectedTime := selectedTime st; loading := loading st;
         timeSlots := timeSlots st; error := s;
         fullName := fullName st; email := email st |}
  | SetFullName s =>
      {| selectedDate := selectedDate st; selectedCabin := selectedCabin st;
         selectedTime := selectedTime st; loading := loading st;
         timeSlots := timeSlots st; error := error st;
         fullName := s; email := email st |}
  | SetEmail s =>
      {| selectedDate := selectedDate st; selectedCabin := selectedCabin st;
         selectedTime := selectedTime st; loading := loading st;
         timeSlots := timeSlots st; error := error st;
         fullName := fullName st; email := s |}
  | PreventDefault
  | CallFetchAvailableTimeSlots _ _
  | CallFetch _ _
  | CallCreateBooking _ => st
  end.

(** The state once a handler has settled. *)
Definition after {A} (st : State) (m : Action A) : State :=
  fold_left apply_event (trace m) st.

(** ** The component *)

Definition webhookURL : string :=
  "https://hook.eu2.make.com/yw5ie28y0kmrkeafigpynd289dk6u1qh".

Definition validationMessage : string := "Prašome užpildyti visus laukus".
Definition loadFailedMessage : string := "Failed to load available time slots".
Definition fallbackMessage : string := "Įvyko klaida!".

(** The surroundings of one run of a handler: the browser's time zone, the
    signed-in user ([useAuth]), the cabin catalogue, and how each call to the
    outside settles. *)
Record World := {
  localTZ : JSDate.TimeZone;
  user : option User;
  cabins : list Cabin;
  fetchAvailableTimeSlots : string -> string -> Completion (list TimeSlot);
  fetch : string -> RequestInit -> Completion Response;
  createBooking : BookingRecord -> Completion unit
}.

Section BookingCalendar.

Variable w : World.

Local Open Scope action_scope.

(** date-fns [format(date, 'yyyy-MM-dd')] as a call that may throw. *)
Definition format (d : JSDate.t) : Action string :=
  match JSDate.format_yyyy_MM_dd (localTZ w) d with
  | Some s => ret s
  | None => lift (Throw (ErrorObject "Invalid time value"))
  end.

Definition loadTimeSlots (cabinId : string) (date : JSDate.t) : Action unit :=
  try_catch_finally
    (emit (SetLoading true) ;;
     emit (SetError "") ;;
     d <- format date ;;
     slots <- await (CallFetchAvailableTimeSlots cabinId d)
                    (fetchAvailableTimeSlots w cabinId d) ;;
     emit (SetTimeSlots slots))
    (fun _ =>
       emit (SetError loadFailedMessage) ;;
       emit (SetTimeSlots []))
    (emit (SetLoading false)).

(** The body of the [useEffect] on [selectedCabin] and [selectedDate]. *)
Definition effect (st : State) : Action unit :=
  if JSString.falsy (selectedCabin st)
  then emit (SetTimeSlots [])
  else loadTimeSlots (selectedCabin st) (selectedDate st).

Definition handleCabinSelect (cabinId : string) : Action unit :=
  emit (SetSelectedCabin cabinId) ;;
  emit (SetSelectedTime "").

Definition formatDateTimeForWebhook (date : JSDate.t) (timeString : string)
    : string :=
  let parts := JSString.split ":" timeString in
  let hours := nth_error parts 0 in
  let minutes := nth_error parts 1 in
  let bookingDate := JSDate.copy date in
  let bookingDate :=
    JSDate.setHours (localTZ w) bookingDate (JSString.parseInt10 hours) in
  let bookingDate :=
    JSDate.setMinutes (localTZ w) bookingDate (JSString.parseInt10 minutes) in
  let bookingDate := JSDate.setSeconds (localTZ w) bookingDate (Some 0) in
  JSString.replace " " "T"
    (JSDate.toLocaleString_sv JSDate.Europe_Vilnius bookingDate)
  ++ "+02:00".

(** [cabins.find(c => c.id === selectedCabin)?.name || ''] *)
Definition cabinName (selected : string) : string :=
  JSString.or_else
    (match find (fun c => String.eqb (id c) selected) (cabins w) with
     | Some c => name c
     | None => ""
     end)
    "".

(** [user?.uid || 'anonymous'] *)
Definition actingUserId : string :=
  JSString.or_else
    (match user w with
     | Some u => uid u
     | None => ""
     end)
    "anonymous".

(** The options object of the webhook [fetch]. *)
Definition webhookInit (st : State) : RequestInit :=
  {| method := "POST";
     headers := [("Content-Type", "application/json")];
     body := [("fullName", fullName st);
              ("email", email st);
              ("dateTime",
               formatDateTimeForWebhook (selectedDate st) (selectedTime st));
              ("timeZone", "Europe/Vilnius");
              ("cabin", selectedCabin st);
              ("cabinName", cabinName (selectedCabin st))] |}.

(** [{ ...bookingData, userId, userEmail, status }] *)
Definition bookingRecord (bookingData : BookingFormData) (st : State)
    : BookingRecord :=
  {| cabin := bd_cabin bookingData;
     date := bd_date bookingData;
     time_ := bd_time bookingData;
     userId := actingUserId;
     userEmail := email st;
     status := "confirmed" |}.

(** The guard at the top of [handleBooking]. *)
Definition missingField (st : State) : bool :=
  JSString.falsy (selectedCabin st) || JSString.falsy (selectedTime st)
  || JSString.falsy (fullName st) || JSString.falsy (email st).

(** [err instanceof Error ? err.message : 'Įvyko klaida!'] *)
Definition errorText (err : Thrown) : string :=
  match err with
  | ErrorObject message => message
  | OtherValue _ => fallbackMessage
  end.

Definition handleBooking (st : State) : Action unit :=
  emit PreventDefault ;;
  if missingField st
  then emit (SetError validationMessage)
  else
    emit (SetLoading true) ;;
    emit (SetError "") ;;
    try_catch_finally
      (d <- format (selectedDate st) ;;
       let bookingData :=
         {| bd_cabin := selectedCabin st; bd_date := d;
            bd_time := selectedTime st |} in
       _ <- await (CallFetch webhookURL (webhookInit st))
                  (fetch w webhookURL (webhookInit st)) ;;
       await (CallCreateBooking (bookingRecord bookingData st))
             (createBooking w (bookingRecord bookingData st)) ;;
       emit (SetSelectedCabin "") ;;
       emit (SetSelectedTime "") ;;
       emit (SetTimeSlots []) ;;
       emit (SetFullName "") ;;
       emit (SetEmail "") ;;
       emit (SetError ""))
      (fun err => emit (SetError (errorText err)))
      (emit (SetLoading false)).

(** The [disabled] attribute of the booking button. *)
Definition submitDisabled (st : State) : bool :=
  loading st || JSString.falsy (selectedCabin st)
  || JSString.falsy (selectedTime st)
  || JSString.falsy (fullName st) || JSString.falsy (email st).

(** The record [handleBooking] hands to [createBooking] when the selected
    date formats as [d]. *)
Definition submittedRecord (st : State) (d : string) : BookingRecord :=
  bookingRecord
    {| bd_cabin := selectedCabin st; bd_date := d; bd_time := selectedTime st |}
    st.

End BookingCalendar.

(** ** Sample runs *)

Module Sample.

(** 2025-06-10T08:00:00.000Z *)
Definition june10 : JSDate.t := Some 1749542400000.

Definition slots : list TimeSlot :=
  [ {| time := "14:00"; available := false |};
    {| time := "14:30"; available := true |} ].

Definition catalogue : list Cabin :=
  [ {| id := "sauna-a"; name := "Sauna A"; description := "";
       pricePerMinute := 1 |} ].

(** A form ready to be submitted, with an old error and old slots showing. *)
Definition ready : State :=
  {| selectedDate := june10; selectedCabin := "sauna-a";
     selectedTime := "14:30"; loading := false; timeSlots := slots;
     error := "old"; fullName := "Jonas Jonaitis";
     email := "jonas@pavyzdys.lt" |}.

(** The same form with the full name left empty. *)
Definition nameless : State :=
  {| selectedDate := june10; selectedCabin := "sauna-a";
     selectedTime := "14:30"; loading := false; timeSlots := slots;
     error := ""; fullName := ""; email := "jonas@pavyzdys.lt" |}.

Definition world (tz : JSDate.TimeZone)
    (load : Completion (list TimeSlot))
    (hook : Completion Response) (persist : Completion unit) : World :=
  {| localTZ := tz; user := None; cabins := catalogue;
     fetchAvailableTimeSlots := fun _ _ => load;
     fetch := fun _ _ => hook;
     createBooking := fun _ => persist |}.

(** Everything succeeds, in a browser set to Europe/Vilnius. *)
Definition all_good : World :=
  world JSDate.Europe_Vilnius (Normal slots)
        (Normal {| http_status := 200 |}) (Normal tt).

(** The webhook answers HTTP 500 and persistence rejects. *)
Definition persist_fails : World :=
  world JSDate.Europe_Vilnius (Normal slots)
        (Normal {| http_status := 500 |})
        (Throw (ErrorObject "permission-denied")).

(** Persistence rejects with an [Error] whose message is empty. *)
Definition persist_fails_silently : World :=
  world JSDate.Europe_Vilnius (Normal slots)
        (Normal {| http_status := 200 |}) (Throw (ErrorObject "")).

(** The webhook cannot be reached. *)
Definition hook_unreachable : World :=
  world JSDate.Europe_Vilnius (Normal slots)
        (Throw (ErrorObject "Failed to fetch")) (Normal tt).

(** The availability query rejects. *)
Definition load_fails : World :=
  world JSDate.Europe_Vilnius (Throw (ErrorObject "unavailable"))
        (Normal {| http_status := 200 |}) (Normal tt).

(** Everything succeeds, in a browser set to UTC. *)
Definition utc_browser : World :=
  world (JSDate.fixed_offset 0) (Normal slots)
        (Normal {| http_status := 200 |}) (Normal tt).

End Sample.

(** ** The timestamp's date, and shapes of strings *)

(** The [bookingDate] of [formatDateTimeForWebhook] once its three setters
    have run. *)
Definition bookingDate (w : World) (date : JSDate.t) (timeString : string)
    : JSDate.t :=
  let parts := JSString.split ":" timeString in
  JSDate.setSeconds (localTZ w)
    (JSDate.setMinutes (localTZ w)
       (JSDate.setHours (localTZ w) (JSDate.copy date)
          (JSString.parseInt10 (nth_error parts 0)))
       (JSString.parseInt10 (nth_error parts 1)))
    (Some 0).

(** [matches pat s]: [s] has the shape [pat], where a [d] in the pattern
    stands for any decimal digit and every other character for itself. *)
Fixpoint matches (pat s : string) : bool :=
  match pat, s with
  | EmptyString, EmptyString => true
  | String p pat', String c s' =>
      (if Ascii.eqb p "d" then JSString.is_digit c else Ascii.eqb p c)
      && matches pat' s'
  | _, _ => false
  end.

(** ** The rendered controls *)

(** What the "Select Time" part of the render shows. *)
Inductive TimePanel :=
| SelectCabinFirst
| Spinner
| SlotButtons (slots : list TimeSlot).

Definition timePanel (st : State) : TimePanel :=
  if JSString.falsy (selectedCabin st) then SelectCabinFirst
  else if loading st then Spinner
  else SlotButtons (timeSlots st).

(** The slot buttons that are rendered and not disabled. *)
Definition clickableSlots (st : State) : list TimeSlot :=
  match timePanel st with
  | SlotButtons slots => filter available slots
  | _ => []
  end.

(** [onClick] of a slot button. *)
Definition handleSlotClick (slot : TimeSlot) : Action unit :=
  emit (SetSelectedTime (time slot)).

(** [onChange] of the two inputs. *)
Definition handleFullNameChange (value : string) : Action unit :=
  emit (SetFullName value).
Definition handleEmailChange (value : string) : Action unit :=
  emit (SetEmail value).

(** The error banner is rendered when [error] is truthy. *)
Definition errorBanner (st : State) : option string :=
  if JSString.falsy (error st) then None else Some (error st).

(** ** The widget over time *)

(** A handler runs without interruption up to each [await]; the awaited
    calls are the calls to the outside, so a run falls into the blocks that
    end with such a call, and a last block after the last call. *)
Fixpoint segments (tr : list Event) : list (list Event) :=
  match tr with
  | [] => [[]]
  | ev :: rest =>
      if is_network ev then [ev] :: segments rest
      else match segments rest with
           | [] => [[ev]]
           | b :: bs => (ev :: b) :: bs
           end
  end.

Definition run_block (b : list Event) (st : State) : State :=
  fold_left apply_event b st.

(** The widget between two uninterrupted blocks: the committed state, for
    every handler run waiting on a call the blocks it has yet to run, and
    everything done so far, oldest first. *)
Record Widget := {
  current : State;
  inflight : list (list (list Event));
  log : list Event
}.

(** A run with blocks left joins the runs in flight; a finished one does
    not. *)
Definition enqueue (rest : list (list Event))
    (runs : list (list (list Event))) : list (list (list Event)) :=
  match rest with
  | [] => runs
  | _ :: _ => rest :: runs
  end.

(** A handler is invoked: its first block runs at once, the rest waits. *)
Definition start (m : Action unit) (wd : Widget) : Widget :=
  match segments (trace m) with
  | [] => wd
  | b :: rest =>
      {| current := run_block b (current wd);
         inflight := enqueue rest (inflight wd);
         log := (log wd ++ b)%list |}
  end.

(** The call the most recent run in flight waits on settles, and that run
    continues with its next block. *)
Definition resume_head (wd : Widget) : Widget :=
  match inflight wd with
  | (b :: rest) :: others =>
      {| current := run_block b (current wd);
         inflight := enqueue rest others;
         log := (log wd ++ b)%list |}
  | _ => wd
  end.

(** The state a first render starts from. *)
Definition mount (now : Z) : Widget :=
  {| current := initialState (Some now); inflight := []; log := [] |}.

Definition is_webhook_call (ev : Event) : bool :=
  match ev with
  | CallFetch _ _ => true
  | _ => false
  end.

Definition is_persist_call (ev : Event) : bool :=
  match ev with
  | CallCreateBooking _ => true
  | _ => false
  end.

Definition count (f : Event -> bool) (l : list Event) : nat :=
  List.length (filter f l).

Section Steps.

(** What stays the same for the life of the page. *)
Variable tz : JSDate.TimeZone.
Variable signedIn : option User.
Variable catalogue : list Cabin.

(** The surroundings of one run: how its calls will settle. *)
Definition surroundings
    (load : string -> string -> Completion (list TimeSlot))
    (hook : string -> RequestInit -> Completion Response)
    (persist : BookingRecord -> Completion unit) : World :=
  {| localTZ := tz; user := signedIn; cabins := catalogue;
     fetchAvailableTimeSlots := load; fetch := hook;
     createBooking := persist |}.

(** One thing happens: the visitor uses a control that is rendered and
    enabled, the effect on cabin and date runs (allowed here at any moment,
    which covers every moment React runs it), or a call some run waits on
    settles and that run continues with its next block. *)
Inductive step : Widget -> Widget -> Prop :=
| step_cabin wd c :
    In c catalogue ->
    step wd (start (handleCabinSelect (id c)) wd)
| step_date wd tv :
    step wd (start (emit (SetSelectedDate (Some tv))) wd)
| step_slot wd slot :
    In slot (clickableSlots (current wd)) ->
    step wd (start (handleSlotClick slot) wd)
| step_fullName wd value :
    step wd (start (handleFullNameChange value) wd)
| step_email wd value :
    step wd (start (handleEmailChange value) wd)
| step_submit wd load hook persist :
    submitDisabled (current wd) = false ->
    step wd (start (handleBooking (surroundings load hook persist)
                      (current wd)) wd)
| step_effect wd load hook persist :
    step wd (start (effect (surroundings load hook persist) (current wd)) wd)
| step_resume wd before b rest after_ :
    inflight wd = (before ++ (b :: rest) :: after_)%list ->
    step wd {| current := run_block b (current wd);
               inflight := (before ++ enqueue rest after_)%list;
               log := (log wd ++ b)%list |}.

Inductive steps : Widget -> Widget -> Prop :=
| steps_none wd : steps wd wd
| steps_more wd wd' wd'' : steps wd wd' -> step wd' wd'' -> steps wd wd''.

Definition reachable (now : Z) (wd : Widget) : Prop := steps (mount now) wd.

End Steps.

(** The selections a widget can be left with: a time is selected only
    together with a resource, and the selected date is a valid one. *)
Definition coherent (st : State) : Prop :=
  (selectedTime st <> "" -> selectedCabin st <> "")
  /\ selectedDate st <> None.

(** A block that leaves every coherent state coherent. *)
Definition keeps_coherent (b : list Event) : Prop :=
  forall st, coherent st -> coherent (run_block b st).

(** What the steps preserve: the committed state is coherent and so will
    every block still to run leave it. *)
Definition sound (wd : Widget) : Prop :=
  coherent (current wd) /\ Forall (Forall keeps_coherent) (inflight wd).

(** How often the calls still to be made by the runs in flight satisfy
    [f]. *)
Definition awaiting (f : Event -> bool) (runs : list (list (list Event)))
    : nat :=
  count f (concat (concat runs)).

(** Bookings handed or still to be handed to persistence do not outnumber
    the webhook notifications already sent. *)
Definition accounted (wd : Widget) : Prop :=
  (count is_persist_call (log wd) + awaiting is_persist_call (inflight wd)
   <= count is_webhook_call (log wd))%nat.

(** A run that hands a booking to persistence has sent its webhook
    notification in its first block. *)
Definition notifies_first (m : Action unit) : Prop :=
  match segments (trace m) with
  | [] => True
  | b :: rest =>
      (count is_persist_call b + count is_persist_call (concat rest)
       <= count is_webhook_call b)%nat
  end.

(** Some availability answer recorded in [done] offered the time [t] as
    available. *)
Definition offered (done : list Event) (t : string) : Prop :=
  exists slots slot,
    In (SetTimeSlots slots) done /\ In slot slots
    /\ available slot = true /\ time slot = t.

(** A block that selects no time: it may only clear the selected time. *)
Definition clears_only (b : list Event) : Prop :=
  forall t, In (SetSelectedTime t) b -> t = "".

(** Every slot shown came with an answer on record, the selected time was
    offered by one, and no run in flight will select a time. *)
Definition traced (wd : Widget) : Prop :=
  (forall slot, In slot (timeSlots (current wd)) ->
                exists slots, In (SetTimeSlots slots) (log wd) /\ In slot slots)
  /\ (selectedTime (current wd) <> "" ->
      offered (log wd) (selectedTime (current wd)))
  /\ Forall (Forall clears_only) (inflight wd).

(** ** A visit *)

Module Visit.

(** The visitor picks the sauna, the slots arrive, and they pick 14:30. *)
Definition load_ok : World :=
  surroundings JSDate.Europe_Vilnius None Sample.catalogue
    (fun _ _ => Normal Sample.slots)
    (fun _ _ => Normal {| http_status := 200 |})
    (fun _ => Normal tt).

Definition now : Z := 1749542400000.

Definition picked_cabin : Widget :=
  start (handleCabinSelect "sauna-a") (mount now).

Definition loading_slots : Widget :=
  start (effect load_ok (current picked_cabin)) picked_cabin.

Definition slots_shown : Widget := resume_head loading_slots.

Definition picked_time : Widget :=
  start (handleSlotClick {| time := "14:30"; available := true |}) slots_shown.

(** They fill in the contact fields and submit; the webhook answers, then
    persistence does. *)
Definition named : Widget :=
  start (handleFullNameChange "Jonas Jonaitis") picked_time.

Definition mailed : Widget :=
  start (handleEmailChange "jonas@pavyzdys.lt") named.

Definition submitting : Widget :=
  start (handleBooking load_ok (current mailed)) mailed.

Definition persisting : Widget := resume_head submitting.

Definition booked : Widget := resume_head persisting.

(** A form whose time label has no colon. *)
Definition odd_label : State :=
  {| selectedDate := Sample.june10; selectedCabin := "sauna-a";
     selectedTime := "1430"; loading := false; timeSlots := [];
     error := ""; fullName := "Jonas Jonaitis";
     email := "jonas@pavyzdys.lt" |}.

End Visit.

(** ** Properties *)

Section Properties.

Variable w : World.

Lemma falsy_true_iff (s : string) : JSString.falsy s = true <-> s = "".
Proof.
  destruct s; simpl; split; intro H; try reflexivity; discriminate.
Qed.

Lemma falsy_false_iff (s : string) : JSString.falsy s = false <-> s <> "".
Proof.
  destruct s; simpl; split; intro H; try reflexivity; try discriminate.
  now contradiction H.
Qed.

Lemma missingField_true_iff (st : State) :
  missingField st = true <->
  selectedCabin st = "" \/ selectedTime st = "" \/ fullName st = ""
  \/ email st = "".
Proof.
  unfold missingField.
  rewrite !orb_true_iff, !falsy_true_iff. tauto.
Qed.

Lemma missingField_false_iff (st : State) :
  missingField st = false <->
  selectedCabin st <> "" /\ selectedTime st <> "" /\ fullName st <> ""
  /\ email st <> "".
Proof.
  unfold missingField.
  rewrite !orb_false_iff, !falsy_false_iff. tauto.
Qed.

(** The run of [handleBooking] on a form that fails the guard. *)
Lemma handleBooking_rejected (st : State) :
  missingField st = true ->
  handleBooking w st = ([PreventDefault; SetError validationMessage], Normal tt).
Proof.
  intro H. unfold handleBooking. rewrite H. reflexivity.
Qed.

(** The run of [handleBooking] on a form that passes the guard, by how the
    two calls settle. *)
Lemma handleBooking_validated (st : State) (d : string) :
  missingField st = false ->
  JSDate.format_yyyy_MM_dd (localTZ w) (selectedDate st) = Some d ->
  handleBooking w st =
  match fetch w webhookURL (webhookInit w st) with
  | Throw e =>
      ([PreventDefault; SetLoading true; SetError "";
        CallFetch webhookURL (webhookInit w st);
        SetError (errorText e); SetLoading false], Normal tt)
  | Normal _ =>
      match createBooking w (submittedRecord w st d) with
      | Throw e =>
          ([PreventDefault; SetLoading true; SetError "";
            CallFetch webhookURL (webhookInit w st);
            CallCreateBooking (submittedRecord w st d);
            SetError (errorText e); SetLoading false], Normal tt)
      | Normal _ =>
          ([PreventDefault; SetLoading true; SetError "";
            CallFetch webhookURL (webhookInit w st);
            CallCreateBooking (submittedRecord w st d);
            SetSelectedCabin ""; SetSelectedTime ""; SetTimeSlots [];
            SetFullName ""; SetEmail ""; SetError "";
            SetLoading false], Normal tt)
      end
  end.
Proof.
  intros Hguard Hdate.
  unfold handleBooking, format, submittedRecord.
  rewrite Hguard, Hdate.
  destruct (fetch w webhookURL (webhookInit w st)) as [resp | e];
    [ | reflexivity ].
  cbn.
  destruct (createBooking w _) as [[] | e]; reflexivity.
Qed.

(** A form whose date is invalid never reaches the network. *)
Lemma handleBooking_invalid_date (st : State) :
  missingField st = false ->
  JSDate.format_yyyy_MM_dd (localTZ w) (selectedDate st) = None ->
  handleBooking w st =
  ([PreventDefault; SetLoading true; SetError "";
    SetError "Invalid time value"; SetLoading false], Normal tt).
Proof.
  intros Hguard Hdate.
  unfold handleBooking, format. rewrite Hguard, Hdate. reflexivity.
Qed.

(** The run of [loadTimeSlots], by how the query settles. *)
Lemma loadTimeSlots_run (cabinId : string) (date : JSDate.t) :
  loadTimeSlots w cabinId date =
  match JSDate.format_yyyy_MM_dd (localTZ w) date with
  | None =>
      ([SetLoading true; SetError ""; SetError loadFailedMessage;
        SetTimeSlots []; SetLoading false], Normal tt)
  | Some d =>
      match fetchAvailableTimeSlots w cabinId d with
      | Normal slots =>
          ([SetLoading true; SetError "";
            CallFetchAvailableTimeSlots cabinId d;
            SetTimeSlots slots; SetLoading false], Normal tt)
      | Throw _ =>
          ([SetLoading true; SetError "";
            CallFetchAvailableTimeSlots cabinId d;
            SetError loadFailedMessage; SetTimeSlots [];
            SetLoading false], Normal tt)
      end
  end.
Proof.
  unfold loadTimeSlots, format.
  destruct (JSDate.format_yyyy_MM_dd (localTZ w) date) as [d | ];
    [ | reflexivity ].
  cbn.
  destruct (fetchAvailableTimeSlots w cabinId d); reflexivity.
Qed.

(** With no resource selected the effect clears the slot list without a
    call to the outside. *)
Lemma effect_no_cabin (st : State) :
  selectedCabin st = "" ->
  effect w st = ([SetTimeSlots []], Normal tt).
Proof.
  intros H. unfold effect. now rewrite H.
Qed.

(** With a resource selected the effect is a load for it and the selected
    date. *)
Lemma effect_cabin (st : State) :
  selectedCabin st <> "" ->
  effect w st = loadTimeSlots w (selectedCabin st) (selectedDate st).
Proof.
  intros H. unfold effect.
  apply falsy_false_iff in H. now rewrite H.
Qed.

(** C1: when the resource, the time, the full name or the email is empty,
    submitting only sets the (Lithuanian) validation message: the run makes
    no call to the outside, neither the webhook nor the persistence call,
    and never touches the loading flag. *)
Theorem handleBooking_missing_field (st : State) :
  selectedCabin st = "" \/ selectedTime st = "" \/ fullName st = ""
  \/ email st = "" ->
  trace (handleBooking w st) = [PreventDefault; SetError validationMessage]
  /\ filter is_network (trace (handleBooking w st)) = []
  /\ filter is_set_loading (trace (handleBooking w st)) = []
  /\ error (after st (handleBooking w st)) = validationMessage
  /\ validationMessage <> ""
  /\ loading (after st (handleBooking w st)) = loading st.
Proof.
  intro H. apply missingField_true_iff in H.
  unfold after. rewrite (handleBooking_rejected st H). cbn.
  repeat split; try reflexivity. discriminate.
Qed.

(** C2: when a submission passes the guard and both the webhook call and
    the persistence call succeed, the resource, the time, the full name,
    the email, the slot list and the error message are back at their
    initial empty values. *)
Theorem handleBooking_success_resets
    (st : State) (d : string) (resp : Response) :
  missingField st = false ->
  JSDate.format_yyyy_MM_dd (localTZ w) (selectedDate st) = Some d ->
  fetch w webhookURL (webhookInit w st) = Normal resp ->
  createBooking w (submittedRecord w st d) = Normal tt ->
  let st' := after st (handleBooking w st) in
  selectedCabin st' = "" /\ selectedTime st' = "" /\ fullName st' = ""
  /\ email st' = "" /\ timeSlots st' = [] /\ error st' = "".
Proof.
  intros Hguard Hdate Hhook Hpersist. unfold after.
  rewrite (handleBooking_validated st d Hguard Hdate), Hhook, Hpersist.
  cbn. repeat split.
Qed.

(** C6: the booking button is disabled exactly when the loading flag is set
    or one of resource, time, full name, email is empty. *)
Theorem submitDisabled_iff (st : State) :
  submitDisabled st = true <->
  loading st = true \/ selectedCabin st = "" \/ selectedTime st = ""
  \/ fullName st = "" \/ email st = "".
Proof.
  unfold submitDisabled.
  rewrite !orb_true_iff, !falsy_true_iff. tauto.
Qed.

(** C7: after a resource is selected the selected time is empty, whether or
    not a time had been chosen before; the selected resource is the one
    clicked. *)
Theorem handleCabinSelect_clears_time (st : State) (cabinId : string) :
  let st' := after st (handleCabinSelect cabinId) in
  selectedTime st' = "" /\ selectedCabin st' = cabinId.
Proof.
  cbn. split; reflexivity.
Qed.

(** C3, amended: when a submission passes the guard and the webhook call or
    the persistence call throws, the resource, time, date, slot list, full
    name and email keep their values, the loading flag is cleared, and the
    error message is the thrown value's message when that value is an
    [Error] and the fallback text otherwise; so it is non-empty unless the
    thrown [Error] carries an empty message. *)
Theorem handleBooking_failure_keeps_selection
    (st : State) (d : string) (e : Thrown) :
  missingField st = false ->
  JSDate.format_yyyy_MM_dd (localTZ w) (selectedDate st) = Some d ->
  fetch w webhookURL (webhookInit w st) = Throw e
  \/ (exists resp, fetch w webhookURL (webhookInit w st) = Normal resp
                   /\ createBooking w (submittedRecord w st d) = Throw e) ->
  let st' := after st (handleBooking w st) in
  selectedCabin st' = selectedCabin st
  /\ selectedTime st' = selectedTime st
  /\ selectedDate st' = selectedDate st
  /\ timeSlots st' = timeSlots st
  /\ fullName st' = fullName st
  /\ email st' = email st
  /\ error st' = match e with
                 | ErrorObject message => message
                 | OtherValue _ => fallbackMessage
                 end
  /\ (e <> ErrorObject "" -> error st' <> "")
  /\ loading st' = false.
Proof.
  intros Hguard Hdate Hfail. unfold after.
  rewrite (handleBooking_validated st d Hguard Hdate).
  assert (Hmsg : e <> ErrorObject "" -> errorText e <> "").
  { destruct e as [m | v]; cbn.
    - intros Hne Hm. apply Hne. now rewrite Hm.
    - intros _. discriminate. }
  destruct Hfail as [Hhook | [resp [Hhook Hpersist]]].
  - rewrite Hhook. cbn. repeat split; assumption.
  - rewrite Hhook, Hpersist. cbn. repeat split; assumption.
Qed.

(** C4: an availability load whose query rejects leaves the slot list
    empty and sets the error message to the fixed, non-empty text "Failed to
    load available time slots", whatever was thrown; one whose query
    resolves leaves the slot list equal to the resolved list, whatever the
    list held before. *)
Theorem loadTimeSlots_replaces_or_clears
    (st : State) (cabinId : string) (date : JSDate.t) (d : string) :
  JSDate.format_yyyy_MM_dd (localTZ w) date = Some d ->
  let st' := after st (loadTimeSlots w cabinId date) in
  (forall e, fetchAvailableTimeSlots w cabinId d = Throw e ->
             timeSlots st' = []
             /\ error st' = "Failed to load available time slots"
             /\ error st' <> "")
  /\ (forall slots, fetchAvailableTimeSlots w cabinId d = Normal slots ->
                    timeSlots st' = slots).
Proof.
  intros Hdate. unfold after. rewrite loadTimeSlots_run, Hdate.
  split.
  - intros e He. rewrite He. cbn.
    split; [ reflexivity | split; [ reflexivity | discriminate ] ].
  - intros slots Hs. rewrite Hs. reflexivity.
Qed.

(** C8: in a submission that passes the guard the webhook call is the first
    call to the outside.  If it throws, it is the only one: the booking is
    not persisted.  If it resolves, with whatever HTTP status, the
    persistence call follows, and nothing follows that call even when it
    rejects: the webhook notification is not taken back. *)
Theorem handleBooking_call_order (st : State) (d : string) :
  missingField st = false ->
  JSDate.format_yyyy_MM_dd (localTZ w) (selectedDate st) = Some d ->
  filter is_network (trace (handleBooking w st)) =
    match fetch w webhookURL (webhookInit w st) with
    | Throw _ => [CallFetch webhookURL (webhookInit w st)]
    | Normal _ => [CallFetch webhookURL (webhookInit w st);
                   CallCreateBooking (submittedRecord w st d)]
    end.
Proof.
  intros Hguard Hdate.
  rewrite (handleBooking_validated st d Hguard Hdate).
  destruct (fetch w webhookURL (webhookInit w st)) as [resp | e];
    [ | reflexivity ].
  destruct (createBooking w (submittedRecord w st d)) as [[] | e];
    reflexivity.
Qed.

(** A fully successful submission leaves the widget as a first render
    with the same date would. *)
Lemma handleBooking_success_initial
    (st : State) (d : string) (resp : Response) :
  missingField st = false ->
  JSDate.format_yyyy_MM_dd (localTZ w) (selectedDate st) = Some d ->
  fetch w webhookURL (webhookInit w st) = Normal resp ->
  createBooking w (submittedRecord w st d) = Normal tt ->
  after st (handleBooking w st) = initialState (selectedDate st).
Proof.
  intros Hguard Hdate Hhook Hpersist. unfold after.
  rewrite (handleBooking_validated st d Hguard Hdate), Hhook, Hpersist.
  reflexivity.
Qed.

(** On first render the booking button is disabled. *)
Lemma initial_submit_disabled (now : JSDate.t) :
  submitDisabled (initialState now) = true.
Proof.
  reflexivity.
Qed.

(** C9: after a submission in which both calls succeed the selected date
    is the one selected before, while resource, time, full name, email,
    slot list and error are cleared. *)
Theorem handleBooking_success_keeps_date
    (st : State) (d : string) (resp : Response) :
  missingField st = false ->
  JSDate.format_yyyy_MM_dd (localTZ w) (selectedDate st) = Some d ->
  fetch w webhookURL (webhookInit w st) = Normal resp ->
  createBooking w (submittedRecord w st d) = Normal tt ->
  let st' := after st (handleBooking w st) in
  selectedDate st' = selectedDate st
  /\ selectedCabin st' = "" /\ selectedTime st' = "" /\ fullName st' = ""
  /\ email st' = "" /\ timeSlots st' = [] /\ error st' = "".
Proof.
  intros Hguard Hdate Hhook Hpersist. unfold after.
  rewrite (handleBooking_validated st d Hguard Hdate), Hhook, Hpersist.
  cbn. repeat split.
Qed.

(** C10: the loading flag is false once an availability load has settled
    and once a submission that passed the guard has settled, however the
    calls made on the way settled; neither handler lets an exception
    escape. *)
Theorem loading_cleared_when_settled
    (st : State) (cabinId : string) (date : JSDate.t) :
  (loading (after st (loadTimeSlots w cabinId date)) = false
   /\ completion (loadTimeSlots w cabinId date) = Normal tt)
  /\ (missingField st = false ->
      loading (after st (handleBooking w st)) = false
      /\ completion (handleBooking w st) = Normal tt).
Proof.
  split.
  - unfold after. rewrite loadTimeSlots_run.
    destruct (JSDate.format_yyyy_MM_dd (localTZ w) date) as [d | ];
      [ | split; reflexivity ].
    destruct (fetchAvailableTimeSlots w cabinId d); split; reflexivity.
  - intros Hguard. unfold after.
    destruct (JSDate.format_yyyy_MM_dd (localTZ w) (selectedDate st))
      as [d | ] eqn:Hdate.
    + rewrite (handleBooking_validated st d Hguard Hdate).
      destruct (fetch w webhookURL (webhookInit w st)) as [resp | e];
        [ | split; reflexivity ].
      destruct (createBooking w (submittedRecord w st d)) as [[] | e];
        split; reflexivity.
    + rewrite (handleBooking_invalid_date st Hguard Hdate).
      split; reflexivity.
Qed.

End Properties.

(** ** The webhook timestamp *)

Section TimeFields.

Import JSDate.

Variables day hour min sec ms : Z.
Hypothesis Hhour : 0 <= hour < 24.
Hypothesis Hmin : 0 <= min < 60.
Hypothesis Hsec : 0 <= sec < 60.
Hypothesis Hms : 0 <= ms < 1000.

Let x : Z := MakeDate day (MakeTime hour min sec ms).

Lemma Day_MakeDate : Day x = day.
Proof.
  subst x. unfold Day, MakeDate, MakeTime, msPerDay, msPerHour, msPerMinute,
    msPerSecond.
  symmetry. apply Z.div_unique with
    (r := hour * 3600000 + min * 60000 + sec * 1000 + ms); lia.
Qed.

Lemma HourFromTime_MakeDate : HourFromTime x = hour.
Proof.
  subst x. unfold HourFromTime, MakeDate, MakeTime, msPerDay, msPerHour,
    msPerMinute, msPerSecond.
  replace (day * 86400000 + (hour * 3600000 + min * 60000 + sec * 1000 + ms))
    with ((day * 24 + hour) * 3600000 + (min * 60000 + sec * 1000 + ms))
    by lia.
  rewrite <- (Z.div_unique _ 3600000 (day * 24 + hour)
                (min * 60000 + sec * 1000 + ms)) by lia.
  rewrite Z.add_comm, Z.mod_add by lia.
  apply Z.mod_small; lia.
Qed.

Lemma MinFromTime_MakeDate : MinFromTime x = min.
Proof.
  subst x. unfold MinFromTime, MakeDate, MakeTime, msPerDay, msPerHour,
    msPerMinute, msPerSecond.
  replace (day * 86400000 + (hour * 3600000 + min * 60000 + sec * 1000 + ms))
    with (((day * 24 + hour) * 60 + min) * 60000 + (sec * 1000 + ms))
    by lia.
  rewrite <- (Z.div_unique _ 60000 ((day * 24 + hour) * 60 + min)
                (sec * 1000 + ms)) by lia.
  rewrite Z.add_comm, Z.mod_add by lia.
  apply Z.mod_small; lia.
Qed.

Lemma SecFromTime_MakeDate : SecFromTime x = sec.
Proof.
  subst x. unfold SecFromTime, MakeDate, MakeTime, msPerDay, msPerHour,
    msPerMinute, msPerSecond.
  replace (day * 86400000 + (hour * 3600000 + min * 60000 + sec * 1000 + ms))
    with ((((day * 24 + hour) * 60 + min) * 60 + sec) * 1000 + ms)
    by lia.
  rewrite <- (Z.div_unique _ 1000 (((day * 24 + hour) * 60 + min) * 60 + sec)
                ms) by lia.
  rewrite Z.add_comm, Z.mod_add by lia.
  apply Z.mod_small; lia.
Qed.

Lemma msFromTime_MakeDate : msFromTime x = ms.
Proof.
  subst x. unfold msFromTime, MakeDate, MakeTime, msPerDay, msPerHour,
    msPerMinute, msPerSecond.
  replace (day * 86400000 + (hour * 3600000 + min * 60000 + sec * 1000 + ms))
    with (ms + (((day * 24 + hour) * 60 + min) * 60 + sec) * 1000)
    by lia.
  rewrite Z.mod_add by lia.
  apply Z.mod_small; lia.
Qed.

End TimeFields.

Lemma all_from_spec (P : Z -> bool) (n : nat) :
  forall lo, all_from P lo n = true ->
  forall z, lo <= z < lo + Z.of_nat n -> P z = true.
Proof.
  induction n as [ | k IH ]; intros lo Hall z Hz.
  - lia.
  - cbn [all_from] in Hall. apply andb_true_iff in Hall.
    destruct Hall as [Hlo Hrest].
    destruct (Z.eq_dec z lo) as [-> | Hne]; [ assumption | ].
    apply (IH (lo + 1) Hrest). lia.
Qed.

(** A check that holds on [0 .. n-1] holds below [n]. *)
Lemma forall_below (P : Z -> bool) (n : nat) :
  all_from P 0 n = true ->
  forall z, 0 <= z < Z.of_nat n -> P z = true.
Proof.
  intros Hall z Hz. apply (all_from_spec P n 0 Hall). lia.
Qed.

Lemma digit_mod (z : Z) : JSString.digit z = JSString.digit (z mod 10).
Proof.
  unfold JSString.digit. now rewrite Z.mod_mod by lia.
Qed.

Lemma digit_not_space (z : Z) : Ascii.eqb (JSString.digit z) " " = false.
Proof.
  rewrite digit_mod.
  apply negb_true_iff.
  apply (forall_below (fun r => negb (Ascii.eqb (JSString.digit r) " ")) 10).
  - vm_compute. reflexivity.
  - apply Z.mod_pos_bound. lia.
Qed.

Lemma no_space_pad2 (z : Z) : JSString.no_space (JSString.pad2 z) = true.
Proof.
  unfold JSString.pad2. cbn [JSString.no_space].
  now rewrite !digit_not_space.
Qed.

Lemma append_assoc (a b c : string) : (a ++ b) ++ c = a ++ b ++ c.
Proof.
  induction a as [ | x a IH ]; cbn; [ reflexivity | now rewrite IH ].
Qed.

Lemma no_space_app (a b : string) :
  JSString.no_space (a ++ b) = JSString.no_space a && JSString.no_space b.
Proof.
  induction a as [ | c a IH ]; cbn; [ reflexivity | ].
  now rewrite IH, andb_assoc.
Qed.

Lemma no_space_uint (d : Decimal.uint) :
  JSString.no_space (NilEmpty.string_of_uint d) = true.
Proof.
  induction d; cbn; auto.
Qed.

Lemma no_space_decimal (z : Z) : JSString.no_space (JSString.decimal z) = true.
Proof.
  unfold JSString.decimal, NilZero.string_of_uint.
  destruct (z <? 0); cbn [JSString.no_space].
  - destruct (N.to_uint _); try reflexivity; apply (no_space_uint (_ u)).
  - destruct (N.to_uint _); try reflexivity; apply (no_space_uint (_ u)).
Qed.

(** [replace] leaves a prefix without spaces alone and rewrites the space
    that follows it. *)
Lemma replace_first_space (p r : string) :
  JSString.no_space p = true ->
  JSString.replace " " "T" (p ++ String " " r) = p ++ String "T" r.
Proof.
  induction p as [ | c p IH ]; cbn; [ reflexivity | ].
  intros H. apply andb_true_iff in H. destruct H as [Hc Hp].
  apply negb_true_iff in Hc. rewrite Hc. now rewrite IH.
Qed.

(** The two calendar conversions agree on every day from 1970 to 2079, and
    the month and day of the month are in range there. *)
Lemma civil_round_trip (z : Z) :
  0 <= z < 40000 ->
  let '(y, m, d) := JSDate.civil_from_days z in
  JSDate.days_from_civil y m d = z /\ 1 <= m <= 12 /\ 1 <= d <= 31.
Proof.
  intros Hz.
  assert (Hn : Z.of_nat (Z.to_nat 40000) = 40000) by (vm_compute; reflexivity).
  rewrite <- Hn in Hz.
  assert (Hall : all_from
    (fun v => let '(y, m, d) := JSDate.civil_from_days v in
              (JSDate.days_from_civil y m d =? v)
              && (1 <=? m) && (m <=? 12) && (1 <=? d) && (d <=? 31))
    0 (Z.to_nat 40000) = true)
    by (vm_compute; reflexivity).
  pose proof (forall_below _ _ Hall z Hz) as H. cbv beta in H.
  destruct (JSDate.civil_from_days z) as [[y m] d].
  rewrite !andb_true_iff in H.
  destruct H as [[[[H1 H2] H3] H4] H5].
  apply Z.eqb_eq in H1. apply Z.leb_le in H2, H3, H4, H5.
  repeat split; assumption.
Qed.

Example civil_epoch : JSDate.civil_from_days 0 = (1970, 1, 1).
Proof. reflexivity. Qed.

Example civil_leap_day :
  JSDate.civil_from_days (JSDate.days_from_civil 2024 2 29) = (2024, 2, 29)
  /\ JSDate.civil_from_days (JSDate.days_from_civil 2024 2 29 + 1)
     = (2024, 3, 1).
Proof. split; reflexivity. Qed.

(** Summer time in 2025 runs from 30 March 01:00 UTC to 26 October 01:00
    UTC. *)
Example Europe_Vilnius_2025 :
  JSDate.civil_from_days (JSDate.last_sunday 2025 3 31) = (2025, 3, 30)
  /\ JSDate.civil_from_days (JSDate.last_sunday 2025 10 31) = (2025, 10, 26)
  /\ JSDate.Europe_Vilnius_utc
       (JSDate.days_from_civil 2025 3 30 * 86400000 + 3599999) = 7200000
  /\ JSDate.Europe_Vilnius_utc
       (JSDate.days_from_civil 2025 3 30 * 86400000 + 3600000) = 10800000
  /\ JSDate.Europe_Vilnius_utc
       (JSDate.days_from_civil 2025 10 26 * 86400000 + 3599999) = 10800000
  /\ JSDate.Europe_Vilnius_utc
       (JSDate.days_from_civil 2025 10 26 * 86400000 + 3600000) = 7200000.
Proof. repeat split; vm_compute; reflexivity. Qed.

(** A slot label [HH:mm] splits and parses into its hour and minute. *)
Lemma parseInt10_pad2 (z : Z) :
  0 <= z < 100 -> JSString.parseInt10 (Some (JSString.pad2 z)) = Some z.
Proof.
  intros Hz.
  pose proof (forall_below
    (fun v => match JSString.parseInt10 (Some (JSString.pad2 v)) with
              | Some r => r =? v
              | None => false
              end) 100 eq_refl z Hz) as H.
  cbv beta in H.
  destruct (JSString.parseInt10 (Some (JSString.pad2 z))) as [r | ];
    [ | discriminate ].
  apply Z.eqb_eq in H. now subst r.
Qed.

Lemma digit_not_colon (z : Z) : Ascii.eqb (JSString.digit z) ":" = false.
Proof.
  rewrite digit_mod.
  apply negb_true_iff.
  apply (forall_below (fun r => negb (Ascii.eqb (JSString.digit r) ":")) 10).
  - vm_compute. reflexivity.
  - apply Z.mod_pos_bound. lia.
Qed.

Lemma split_slot_label (h m : Z) :
  JSString.split ":" (JSString.pad2 h ++ ":" ++ JSString.pad2 m)
  = [JSString.pad2 h; JSString.pad2 m].
Proof.
  unfold JSString.pad2. cbn.
  now rewrite !digit_not_colon.
Qed.

Section Setters.

Import JSDate.

Variable tz : TimeZone.

Lemma time_field_bounds (lt : Z) :
  0 <= HourFromTime lt < 24 /\ 0 <= MinFromTime lt < 60
  /\ 0 <= SecFromTime lt < 60 /\ 0 <= msFromTime lt < 1000.
Proof.
  unfold HourFromTime, MinFromTime, SecFromTime, msFromTime, msPerSecond.
  repeat split; apply Z.mod_pos_bound; lia.
Qed.

Lemma LocalTime_UTC (x : Z) : round_trips tz x -> LocalTime tz (UTC tz x) = x.
Proof.
  unfold round_trips, LocalTime. intros ->. unfold UTC. lia.
Qed.

Lemma TimeClip_in_range (tv : Z) : in_range tv -> TimeClip tv = Some tv.
Proof.
  unfold in_range, TimeClip. intros H.
  apply Z.leb_le in H. now rewrite H.
Qed.

(** [setHours], [setMinutes] and [setSeconds(0)] in a row put the date at
    the given time of day of its local calendar day, provided the local
    times passed through exist and stay within the range of a [Date]. *)
Lemma setters_local_time (tv h m : Z) :
  0 <= h < 24 -> 0 <= m < 60 ->
  let lt := LocalTime tz tv in
  let x1 := at_time lt h (MinFromTime lt) (SecFromTime lt) in
  let x2 := at_time lt h m (SecFromTime lt) in
  let x3 := at_time lt h m 0 in
  round_trips tz x1 -> in_range (UTC tz x1) ->
  round_trips tz x2 -> in_range (UTC tz x2) ->
  in_range (UTC tz x3) ->
  setSeconds tz
    (setMinutes tz (setHours tz (Some tv) (Some h)) (Some m)) (Some 0)
  = Some (UTC tz x3).
Proof.
  intros Hh Hm lt x1 x2 x3 Hrt1 Hin1 Hrt2 Hin2 Hin3.
  destruct (time_field_bounds lt) as [_ [Hmin [Hsec Hms]]].
  assert (E1 : setHours tz (Some tv) (Some h) = Some (UTC tz x1)).
  { unfold setHours. fold lt. now apply TimeClip_in_range. }
  rewrite E1.
  assert (E2 : setMinutes tz (Some (UTC tz x1)) (Some m) = Some (UTC tz x2)).
  { unfold setMinutes. rewrite (LocalTime_UTC x1 Hrt1).
    unfold x1, at_time.
    rewrite Day_MakeDate, HourFromTime_MakeDate, SecFromTime_MakeDate,
      msFromTime_MakeDate by assumption.
    now apply TimeClip_in_range. }
  rewrite E2.
  unfold setSeconds. rewrite (LocalTime_UTC x2 Hrt2).
  unfold x2, at_time.
  rewrite Day_MakeDate, HourFromTime_MakeDate, MinFromTime_MakeDate,
    msFromTime_MakeDate by assumption.
  now apply TimeClip_in_range.
Qed.

End Setters.

(** The timestamp is either the marker of an invalid date, with its space
    replaced, or the Europe/Vilnius wall clock reading of the resulting
    instant in the form [y-MM-ddTHH:mm:ss], followed by the fixed suffix. *)
Lemma toLocaleString_sv_T (tz : JSDate.TimeZone) (d : JSDate.t) :
  JSString.replace " " "T" (JSDate.toLocaleString_sv tz d) =
  match d with
  | None => "InvalidTDate"
  | Some tv =>
      let lt := JSDate.LocalTime tz tv in
      JSString.decimal (JSDate.YearFromTime lt) ++ "-"
      ++ JSString.pad2 (JSDate.MonthNumberFromTime lt) ++ "-"
      ++ JSString.pad2 (JSDate.DateFromTime lt) ++ "T"
      ++ JSString.pad2 (JSDate.HourFromTime lt) ++ ":"
      ++ JSString.pad2 (JSDate.MinFromTime lt) ++ ":"
      ++ JSString.pad2 (JSDate.SecFromTime lt)
  end.
Proof.
  destruct d as [tv | ]; [ | reflexivity ].
  unfold JSDate.toLocaleString_sv. cbv zeta.
  set (lt := JSDate.LocalTime tz tv).
  set (rest := JSString.pad2 (JSDate.HourFromTime lt) ++ ":"
               ++ JSString.pad2 (JSDate.MinFromTime lt) ++ ":"
               ++ JSString.pad2 (JSDate.SecFromTime lt)).
  pose proof (replace_first_space
    (JSString.decimal (JSDate.YearFromTime lt) ++ "-"
     ++ JSString.pad2 (JSDate.MonthNumberFromTime lt) ++ "-"
     ++ JSString.pad2 (JSDate.DateFromTime lt)) rest) as H.
  rewrite !no_space_app, no_space_decimal, !no_space_pad2 in H.
  specialize (H eq_refl).
  rewrite !append_assoc in H. exact H.
Qed.

(** X10: for a booking in the year 2000 or later, when the browser's
    offset at the selected local time equals the Europe/Vilnius offset at
    the resulting instant, the timestamp is the selected local calendar day
    and the selected time of day. *)
Theorem formatDateTimeForWebhook_same_offset (w : World) (tv h m : Z) :
  0 <= h < 24 -> 0 <= m < 60 ->
  let tz := localTZ w in
  let lt := JSDate.LocalTime tz tv in
  let x1 := JSDate.at_time lt h (JSDate.MinFromTime lt) (JSDate.SecFromTime lt) in
  let x2 := JSDate.at_time lt h m (JSDate.SecFromTime lt) in
  let x3 := JSDate.at_time lt h m 0 in
  JSDate.round_trips tz x1 -> JSDate.in_range (JSDate.UTC tz x1) ->
  JSDate.round_trips tz x2 -> JSDate.in_range (JSDate.UTC tz x2) ->
  JSDate.in_range (JSDate.UTC tz x3) ->
  JSDate.since_2000 <= JSDate.UTC tz x3 ->
  JSDate.Europe_Vilnius (JSDate.UTC tz x3) true = tz x3 false ->
  formatDateTimeForWebhook w (Some tv)
    (JSString.pad2 h ++ ":" ++ JSString.pad2 m)
  = JSString.decimal (JSDate.YearFromTime lt) ++ "-"
    ++ JSString.pad2 (JSDate.MonthNumberFromTime lt) ++ "-"
    ++ JSString.pad2 (JSDate.DateFromTime lt) ++ "T"
    ++ JSString.pad2 h ++ ":" ++ JSString.pad2 m ++ ":00+02:00".
Proof.
  intros Hh Hm tz lt x1 x2 x3 Hrt1 Hin1 Hrt2 Hin2 Hin3 _ Hsame.
  destruct (time_field_bounds lt) as [_ [_ [_ Hms]]].
  unfold formatDateTimeForWebhook.
  rewrite split_slot_label. cbn [nth_error].
  rewrite !parseInt10_pad2 by lia.
  unfold JSDate.copy. fold tz.
  rewrite (setters_local_time tz tv h m Hh Hm Hrt1 Hin1 Hrt2 Hin2 Hin3).
  fold lt x3.
  rewrite toLocaleString_sv_T. cbv zeta.
  assert (E : JSDate.LocalTime JSDate.Europe_Vilnius (JSDate.UTC tz x3) = x3).
  { unfold JSDate.LocalTime. rewrite Hsame. unfold JSDate.UTC. lia. }
  rewrite E.
  unfold JSDate.YearFromTime, JSDate.MonthNumberFromTime, JSDate.DateFromTime.
  unfold x3, JSDate.at_time.
  rewrite Day_MakeDate, HourFromTime_MakeDate,
    MinFromTime_MakeDate, SecFromTime_MakeDate
    by (assumption || lia).
  rewrite !append_assoc. reflexivity.
Qed.

(** The hypotheses of [formatDateTimeForWebhook_same_offset] hold for the
    sample form in a browser set to Europe/Vilnius. *)
Lemma formatDateTimeForWebhook_same_offset_witness :
  formatDateTimeForWebhook Sample.all_good Sample.june10 "14:30"
  = "2025-06-10T14:30:00+02:00".
Proof.
  apply (formatDateTimeForWebhook_same_offset Sample.all_good
           1749542400000 14 30);
    try lia; try (vm_compute; reflexivity);
    unfold JSDate.in_range; vm_compute; discriminate.
Defined.

(** The webhook body always names the target zone. *)
Lemma webhook_timeZone_field (w : World) (st : State) :
  In ("timeZone", "Europe/Vilnius") (body (webhookInit w st)).
Proof.
  cbn. auto 6.
Qed.

(** In a browser set to Europe/Vilnius the sample form yields the timestamp
    of the documented example. *)
Lemma formatDateTimeForWebhook_vilnius_browser :
  JSDate.format_yyyy_MM_dd (localTZ Sample.all_good)
    (selectedDate Sample.ready) = Some "2025-06-10"
  /\ formatDateTimeForWebhook Sample.all_good
       (selectedDate Sample.ready) (selectedTime Sample.ready)
     = "2025-06-10T14:30:00+02:00".
Proof.
  split; vm_compute; reflexivity.
Qed.

(** C5: in a browser set to UTC, with the selected date showing as
    2025-06-10 and the selected time 14:30, the timestamp sent to the webhook
    reads 17:30, while the record handed to persistence in the same run keeps
    14:30; the time zone field is Europe/Vilnius. *)
Theorem formatDateTimeForWebhook_utc_browser :
  JSDate.format_yyyy_MM_dd (localTZ Sample.utc_browser)
    (selectedDate Sample.ready) = Some "2025-06-10"
  /\ selectedTime Sample.ready = "14:30"
  /\ formatDateTimeForWebhook Sample.utc_browser
       (selectedDate Sample.ready) (selectedTime Sample.ready)
     = "2025-06-10T17:30:00+02:00"
  /\ time_ (submittedRecord Sample.utc_browser Sample.ready "2025-06-10")
     = "14:30"
  /\ In ("timeZone", "Europe/Vilnius")
        (body (webhookInit Sample.utc_browser Sample.ready)).
Proof.
  repeat split; try (vm_compute; reflexivity).
  apply webhook_timeZone_field.
Qed.

(** ** Sample runs of the properties *)

Lemma handleBooking_missing_field_witness :
  fullName Sample.nameless = ""
  /\ trace (handleBooking Sample.all_good Sample.nameless)
     = [PreventDefault; SetError validationMessage]
  /\ filter is_network (trace (handleBooking Sample.all_good Sample.nameless))
     = [].
Proof.
  split; [ reflexivity | ].
  pose proof (handleBooking_missing_field Sample.all_good Sample.nameless) as H.
  destruct H as [Htr [Hnet _]].
  - right; right; left; reflexivity.
  - split; assumption.
Defined.

Lemma handleBooking_success_resets_witness :
  let st' := after Sample.ready (handleBooking Sample.all_good Sample.ready) in
  selectedCabin st' = "" /\ selectedTime st' = "" /\ fullName st' = ""
  /\ email st' = "" /\ timeSlots st' = [] /\ error st' = "".
Proof.
  apply (handleBooking_success_resets Sample.all_good Sample.ready
           "2025-06-10" {| http_status := 200 |});
    vm_compute; reflexivity.
Defined.

(** The C3 claim as worded fails: persistence rejects with an [Error] whose
    message is empty, and the error message shown afterwards is empty. *)
Lemma handleBooking_failure_error_may_be_empty :
  missingField Sample.ready = false
  /\ createBooking Sample.persist_fails_silently
       (submittedRecord Sample.persist_fails_silently Sample.ready "2025-06-10")
     = Throw (ErrorObject "")
  /\ ~ error (after Sample.ready
                (handleBooking Sample.persist_fails_silently Sample.ready))
       <> "".
Proof.
  split; [ reflexivity | split; [ reflexivity | ] ].
  intro H. apply H. vm_compute. reflexivity.
Qed.

Lemma handleBooking_failure_keeps_selection_witness :
  let st' :=
    after Sample.ready (handleBooking Sample.persist_fails Sample.ready) in
  selectedCabin st' = "sauna-a" /\ error st' = "permission-denied"
  /\ error st' <> "" /\ loading st' = false.
Proof.
  pose proof (handleBooking_failure_keeps_selection Sample.persist_fails
                Sample.ready "2025-06-10" (ErrorObject "permission-denied"))
    as H.
  destruct H as [Hc [_ [_ [_ [_ [_ [He [Hne Hl]]]]]]]].
  - reflexivity.
  - vm_compute; reflexivity.
  - right. exists {| http_status := 500 |}. split; reflexivity.
  - cbv zeta. repeat split; try assumption.
    apply Hne. discriminate.
Defined.

Lemma loadTimeSlots_replaces_or_clears_witness :
  timeSlots Sample.ready = Sample.slots
  /\ timeSlots (after Sample.ready
                  (loadTimeSlots
                     (Sample.world JSDate.Europe_Vilnius
                        (Normal [ {| time := "09:00"; available := true |} ])
                        (Normal {| http_status := 200 |}) (Normal tt))
                     "sauna-a" Sample.june10))
     = [ {| time := "09:00"; available := true |} ]
  /\ timeSlots (after Sample.ready
                  (loadTimeSlots Sample.load_fails "sauna-a" Sample.june10))
     = []
  /\ error (after Sample.ready
              (loadTimeSlots Sample.load_fails "sauna-a" Sample.june10))
     = "Failed to load available time slots".
Proof.
  split; [ reflexivity | split ].
  - apply (proj2 (loadTimeSlots_replaces_or_clears
                    (Sample.world JSDate.Europe_Vilnius
                       (Normal [ {| time := "09:00"; available := true |} ])
                       (Normal {| http_status := 200 |}) (Normal tt))
                    Sample.ready "sauna-a" Sample.june10 "2025-06-10"
                    eq_refl)).
    reflexivity.
  - pose proof (proj1 (loadTimeSlots_replaces_or_clears Sample.load_fails
                         Sample.ready "sauna-a" Sample.june10 "2025-06-10"
                         eq_refl)
                  (ErrorObject "unavailable") eq_refl) as H.
    destruct H as [Hs [He _]]. split; assumption.
Defined.

Lemma handleBooking_call_order_witness :
  filter is_network (trace (handleBooking Sample.persist_fails Sample.ready))
  = [CallFetch webhookURL (webhookInit Sample.persist_fails Sample.ready);
     CallCreateBooking
       (submittedRecord Sample.persist_fails Sample.ready "2025-06-10")]
  /\ filter is_network
       (trace (handleBooking Sample.hook_unreachable Sample.ready))
     = [CallFetch webhookURL (webhookInit Sample.hook_unreachable Sample.ready)].
Proof.
  split.
  - apply (handleBooking_call_order Sample.persist_fails Sample.ready
             "2025-06-10"); vm_compute; reflexivity.
  - apply (handleBooking_call_order Sample.hook_unreachable Sample.ready
             "2025-06-10"); vm_compute; reflexivity.
Defined.

Lemma handleBooking_success_keeps_date_witness :
  let st' := after Sample.ready (handleBooking Sample.all_good Sample.ready) in
  selectedDate st' = Sample.june10
  /\ selectedCabin st' = "" /\ selectedTime st' = "" /\ fullName st' = ""
  /\ email st' = "" /\ timeSlots st' = [] /\ error st' = "".
Proof.
  apply (handleBooking_success_keeps_date Sample.all_good Sample.ready
           "2025-06-10" {| http_status := 200 |});
    vm_compute; reflexivity.
Defined.

Lemma loading_cleared_when_settled_witness :
  loading (after Sample.ready
             (loadTimeSlots Sample.load_fails "sauna-a" Sample.june10)) = false
  /\ loading (after Sample.ready
                (handleBooking Sample.hook_unreachable Sample.ready)) = false.
Proof.
  pose proof (loading_cleared_when_settled Sample.load_fails Sample.ready
                "sauna-a" Sample.june10) as Hload.
  pose proof (loading_cleared_when_settled Sample.hook_unreachable Sample.ready
                "sauna-a" Sample.june10) as Hsubmit.
  split.
  - exact (proj1 (proj1 Hload)).
  - exact (proj1 (proj2 Hsubmit eq_refl)).
Defined.


(** ** Further properties of the handlers *)

(** X1: an availability load, however it settles, leaves the selected
    resource, time and date and the two contact fields as they were; in
    particular a selected time survives a reload whose slots no longer
    offer it. *)
Theorem loadTimeSlots_frame
    (w : World) (st : State) (cabinId : string) (date : JSDate.t) :
  let st' := after st (loadTimeSlots w cabinId date) in
  selectedCabin st' = selectedCabin st
  /\ selectedTime st' = selectedTime st
  /\ selectedDate st' = selectedDate st
  /\ fullName st' = fullName st
  /\ email st' = email st.
Proof.
  unfold after. rewrite loadTimeSlots_run.
  destruct (JSDate.format_yyyy_MM_dd (localTZ w) date) as [d | ];
    [ | repeat split ].
  destruct (fetchAvailableTimeSlots w cabinId d); repeat split.
Qed.

(** X2: an availability load makes at most one call to the outside: the
    query for the given resource and the local calendar day of the given
    date, and no call at all when that date is invalid. *)
Theorem loadTimeSlots_single_query
    (w : World) (cabinId : string) (date : JSDate.t) :
  filter is_network (trace (loadTimeSlots w cabinId date)) =
  match JSDate.format_yyyy_MM_dd (localTZ w) date with
  | Some d => [CallFetchAvailableTimeSlots cabinId d]
  | None => []
  end.
Proof.
  rewrite loadTimeSlots_run.
  destruct (JSDate.format_yyyy_MM_dd (localTZ w) date) as [d | ];
    [ | reflexivity ].
  destruct (fetchAvailableTimeSlots w cabinId d); reflexivity.
Qed.

(** X3: selecting a resource and letting the effect's reload resolve shows
    that resource's slots with no time chosen, no error and no spinner, and
    the booking button stays disabled until a time is picked. *)
Theorem select_cabin_then_reload
    (w : World) (st : State) (cabinId d : string) (slots : list TimeSlot) :
  cabinId <> "" ->
  JSDate.format_yyyy_MM_dd (localTZ w) (selectedDate st) = Some d ->
  fetchAvailableTimeSlots w cabinId d = Normal slots ->
  let st1 := after st (handleCabinSelect cabinId) in
  let st2 := after st1 (effect w st1) in
  selectedCabin st2 = cabinId
  /\ selectedTime st2 = ""
  /\ timeSlots st2 = slots
  /\ error st2 = ""
  /\ loading st2 = false
  /\ timePanel st2 = SlotButtons slots
  /\ submitDisabled st2 = true.
Proof.
  intros Hc Hdate Hload st1 st2.
  assert (E : effect w st1 = loadTimeSlots w cabinId (selectedDate st)).
  { unfold effect, st1. cbn.
    apply falsy_false_iff in Hc. now rewrite Hc. }
  assert (E2 : st2 =
    {| selectedDate := selectedDate st; selectedCabin := cabinId;
       selectedTime := ""; loading := false; timeSlots := slots;
       error := ""; fullName := fullName st; email := email st |}).
  { unfold st2, after. rewrite E, loadTimeSlots_run, Hdate, Hload.
    reflexivity. }
  rewrite E2. unfold timePanel, submitDisabled. cbn.
  apply falsy_false_iff in Hc. rewrite Hc.
  repeat split.
Qed.

Lemma select_cabin_then_reload_witness :
  let st1 := after (initialState Sample.june10) (handleCabinSelect "sauna-a") in
  let st2 := after st1 (effect Sample.all_good st1) in
  timeSlots st2 = Sample.slots /\ submitDisabled st2 = true.
Proof.
  pose proof (select_cabin_then_reload Sample.all_good
                (initialState Sample.june10) "sauna-a" "2025-06-10"
                Sample.slots) as H.
  destruct H as [_ [_ [Hs [_ [_ [_ Hd]]]]]].
  - discriminate.
  - vm_compute; reflexivity.
  - reflexivity.
  - split; assumption.
Defined.

(** X4: after a fully successful submission the effect that the cleared
    resource triggers makes no call to the outside and changes nothing: the
    widget rests in its first-render state for the same date, with the
    booking button disabled. *)
Theorem success_then_effect_idle
    (w : World) (st : State) (d : string) (resp : Response) :
  missingField st = false ->
  JSDate.format_yyyy_MM_dd (localTZ w) (selectedDate st) = Some d ->
  fetch w webhookURL (webhookInit w st) = Normal resp ->
  createBooking w (submittedRecord w st d) = Normal tt ->
  let st1 := after st (handleBooking w st) in
  filter is_network (trace (effect w st1)) = []
  /\ after st1 (effect w st1) = st1
  /\ st1 = initialState (selectedDate st)
  /\ submitDisabled st1 = true.
Proof.
  intros Hguard Hdate Hhook Hpersist st1.
  assert (E : st1 = initialState (selectedDate st))
    by (apply (handleBooking_success_initial w st d resp); assumption).
  rewrite E. repeat split.
Qed.

Lemma success_then_effect_idle_witness :
  let st1 := after Sample.ready (handleBooking Sample.all_good Sample.ready) in
  filter is_network (trace (effect Sample.all_good st1)) = []
  /\ after st1 (effect Sample.all_good st1) = st1.
Proof.
  pose proof (success_then_effect_idle Sample.all_good Sample.ready
                "2025-06-10" {| http_status := 200 |}) as H.
  destruct H as [Hn [Hs _]]; try (vm_compute; reflexivity).
  split; assumption.
Defined.

Lemma actingUserId_not_empty (w : World) : actingUserId w <> "".
Proof.
  unfold actingUserId, JSString.or_else.
  destruct (user w) as [[u] | ]; cbn; [ | discriminate ].
  destruct u; cbn; discriminate.
Qed.

(** The calls to the outside a submission can make at all. *)
Lemma handleBooking_calls (w : World) (st : State) (ev : Event) :
  In ev (trace (handleBooking w st)) -> is_network ev = true ->
  missingField st = false
  /\ exists d, JSDate.format_yyyy_MM_dd (localTZ w) (selectedDate st) = Some d
               /\ (ev = CallFetch webhookURL (webhookInit w st)
                   \/ ev = CallCreateBooking (submittedRecord w st d)).
Proof.
  intros Hin Hnet.
  destruct (missingField st) eqn:Hguard.
  - rewrite (handleBooking_rejected w st Hguard) in Hin. cbn in Hin.
    destruct Hin as [<- | [<- | []]]; discriminate.
  - split; [ reflexivity | ].
    destruct (JSDate.format_yyyy_MM_dd (localTZ w) (selectedDate st))
      as [d | ] eqn:Hdate.
    + exists d. split; [ reflexivity | ].
      rewrite (handleBooking_validated w st d Hguard Hdate) in Hin.
      destruct (fetch w webhookURL (webhookInit w st)) as [resp | e].
      * destruct (createBooking w (submittedRecord w st d)) as [[] | e];
          cbn in Hin;
          repeat (destruct Hin as [<- | Hin]; try discriminate; auto);
          contradiction.
      * cbn in Hin.
        repeat (destruct Hin as [<- | Hin]; try discriminate; auto);
          contradiction.
    + rewrite (handleBooking_invalid_date w st Hguard Hdate) in Hin.
      cbn in Hin.
      repeat (destruct Hin as [<- | Hin]; try discriminate); contradiction.
Qed.

(** X5: whatever the state the handler is invoked in, a booking is handed
    to persistence only complete: its resource, time and email are the
    non-empty ones on the form, its date is the selected date's local
    calendar day, its status is "confirmed", and its user id is never
    empty. *)
Theorem createBooking_only_complete
    (w : World) (st : State) (r : BookingRecord) :
  In (CallCreateBooking r) (trace (handleBooking w st)) ->
  cabin r = selectedCabin st /\ cabin r <> ""
  /\ time_ r = selectedTime st /\ time_ r <> ""
  /\ userEmail r = email st /\ userEmail r <> ""
  /\ JSDate.format_yyyy_MM_dd (localTZ w) (selectedDate st) = Some (date r)
  /\ status r = "confirmed"
  /\ userId r <> "".
Proof.
  intros Hin.
  destruct (handleBooking_calls w st _ Hin eq_refl)
    as [Hguard [d [Hdate [Heq | Heq]]]]; [ discriminate | ].
  injection Heq as ->.
  apply missingField_false_iff in Hguard.
  destruct Hguard as [Hc [Ht [_ He]]].
  cbn. repeat split; try assumption.
  apply actingUserId_not_empty.
Qed.

Lemma createBooking_only_complete_witness :
  let r := submittedRecord Sample.all_good Sample.ready "2025-06-10" in
  cabin r = "sauna-a" /\ time_ r = "14:30" /\ date r = "2025-06-10"
  /\ userId r = "anonymous" /\ status r = "confirmed".
Proof.
  pose proof (createBooking_only_complete Sample.all_good Sample.ready
                (submittedRecord Sample.all_good Sample.ready "2025-06-10"))
    as H.
  destruct H as [Hc [_ [Ht [_ [_ [_ [_ [Hs _]]]]]]]].
  - vm_compute. auto 10.
  - cbv zeta. repeat split; try assumption; reflexivity.
Defined.

(** X6: every call the submission makes with [fetch] goes to the one fixed
    webhook address as a JSON POST whose body carries the non-empty full
    name and email of the form, the selected resource and the name of the
    target zone. *)
Theorem webhook_only_complete
    (w : World) (st : State) (url : string) (init : RequestInit) :
  In (CallFetch url init) (trace (handleBooking w st)) ->
  url = webhookURL
  /\ method init = "POST"
  /\ headers init = [("Content-Type", "application/json")]
  /\ map fst (body init)
     = ["fullName"; "email"; "dateTime"; "timeZone"; "cabin"; "cabinName"]
  /\ In ("fullName", fullName st) (body init) /\ fullName st <> ""
  /\ In ("email", email st) (body init) /\ email st <> ""
  /\ In ("cabin", selectedCabin st) (body init) /\ selectedCabin st <> ""
  /\ In ("timeZone", "Europe/Vilnius") (body init).
Proof.
  intros Hin.
  destruct (handleBooking_calls w st _ Hin eq_refl)
    as [Hguard [d [Hdate [Heq | Heq]]]]; [ | discriminate ].
  injection Heq as -> ->.
  apply missingField_false_iff in Hguard.
  destruct Hguard as [Hc [_ [Hn He]]].
  cbn. repeat split; auto 8.
Qed.

Lemma webhook_only_complete_witness :
  In ("fullName", "Jonas Jonaitis")
     (body (webhookInit Sample.all_good Sample.ready))
  /\ In ("cabinName", "Sauna A")
        (body (webhookInit Sample.all_good Sample.ready)).
Proof.
  pose proof (webhook_only_complete Sample.all_good Sample.ready webhookURL
                (webhookInit Sample.all_good Sample.ready)) as H.
  destruct H as [_ [_ [_ [_ [Hn _]]]]].
  - vm_compute. auto 10.
  - split; [ exact Hn | vm_compute; auto 10 ].
Defined.



(** ** Further properties of the timestamp *)

Lemma formatDateTimeForWebhook_bookingDate
    (w : World) (date : JSDate.t) (timeString : string) :
  formatDateTimeForWebhook w date timeString =
  JSString.replace " " "T"
    (JSDate.toLocaleString_sv JSDate.Europe_Vilnius
       (bookingDate w date timeString))
  ++ "+02:00".
Proof.
  reflexivity.
Qed.

(** X8: a selected time whose hour or minute part does not start with a
    number (a label without a colon has no minute part at all) does not make
    the formatter throw: for every date the timestamp is the text
    "InvalidTDate+02:00", and that is what the webhook body carries as
    [dateTime]. *)
Theorem formatDateTimeForWebhook_unparsable (w : World) (st : State) :
  JSString.parseInt10
    (nth_error (JSString.split ":" (selectedTime st)) 0) = None
  \/ JSString.parseInt10
       (nth_error (JSString.split ":" (selectedTime st)) 1) = None ->
  (forall date,
     formatDateTimeForWebhook w date (selectedTime st) = "InvalidTDate+02:00")
  /\ In ("dateTime", "InvalidTDate+02:00") (body (webhookInit w st)).
Proof.
  intros Hbad.
  assert (E : forall date, formatDateTimeForWebhook w date (selectedTime st)
                           = "InvalidTDate+02:00").
  { intros date. rewrite formatDateTimeForWebhook_bookingDate.
    assert (Hd : bookingDate w date (selectedTime st) = None).
    { unfold bookingDate. cbv zeta.
      destruct Hbad as [-> | ->].
      - destruct (JSDate.copy date); reflexivity.
      - destruct (JSDate.setHours _ _ _); reflexivity. }
    rewrite Hd. reflexivity. }
  split; [ exact E | ].
  unfold webhookInit. cbn [body]. rewrite E. cbn. auto.
Qed.

Lemma formatDateTimeForWebhook_unparsable_witness :
  formatDateTimeForWebhook Sample.all_good Sample.june10 "1430"
  = "InvalidTDate+02:00"
  /\ In ("dateTime", "InvalidTDate+02:00")
        (body (webhookInit Sample.all_good Visit.odd_label)).
Proof.
  pose proof (formatDateTimeForWebhook_unparsable Sample.all_good
                Visit.odd_label) as H.
  destruct H as [Hf Hb].
  - right. reflexivity.
  - split; [ exact (Hf Sample.june10) | exact Hb ].
Defined.

Lemma is_digit_digit (z : Z) : JSString.is_digit (JSString.digit z) = true.
Proof.
  rewrite digit_mod.
  apply (forall_below (fun r => JSString.is_digit (JSString.digit r)) 10).
  - vm_compute. reflexivity.
  - apply Z.mod_pos_bound. lia.
Qed.

Lemma matches_pad2 (z : Z) : matches "dd" (JSString.pad2 z) = true.
Proof.
  unfold JSString.pad2. cbn. now rewrite !is_digit_digit.
Qed.

Lemma matches_app (p1 p2 s1 s2 : string) :
  matches p1 s1 = true -> matches p2 s2 = true ->
  matches (p1 ++ p2) (s1 ++ s2) = true.
Proof.
  revert s1. induction p1 as [ | p p1 IH ]; intros [ | c s1 ] H1 H2;
    cbn in *; try discriminate; [ assumption | ].
  apply andb_true_iff in H1. destruct H1 as [Hc H1].
  rewrite Hc. now apply IH.
Qed.


Lemma matches_padded_year (y : Z) :
  0 <= y <= 9999 -> matches "dddd" (JSString.addLeadingZeros y 4) = true.
Proof.
  intros Hy.
  assert (Hall : all_from
                   (fun v => matches "dddd" (JSString.addLeadingZeros v 4))
                   0 (Z.to_nat 10000) = true) by (vm_compute; reflexivity).
  apply (all_from_spec _ _ _ Hall).
  assert (Hn : Z.of_nat (Z.to_nat 10000) = 10000) by (vm_compute; reflexivity).
  rewrite Hn. lia.
Qed.



(** X11: the calendar day sent to the availability query and stored with
    the booking has the shape dddd-dd-dd whenever the selected date's local
    year lies between 0 and 9999; an invalid date yields no day at all. *)
Theorem format_yyyy_MM_dd_shape (tz : JSDate.TimeZone) (tv : Z) :
  0 <= JSDate.YearFromTime (JSDate.LocalTime tz tv) <= 9999 ->
  exists d, JSDate.format_yyyy_MM_dd tz (Some tv) = Some d
            /\ matches "dddd-dd-dd" d = true.
Proof.
  intros Hy. eexists. split; [ reflexivity | ].
  set (lt := JSDate.LocalTime tz tv) in *.
  assert (Hera : 0 <= JSDate.yearOfEra (JSDate.YearFromTime lt) <= 9999).
  { unfold JSDate.yearOfEra.
    destruct (0 <? JSDate.YearFromTime lt) eqn:E; [ lia | ].
    apply Z.ltb_ge in E. lia. }
  apply (matches_app "dddd" "-dd-dd"); [ now apply matches_padded_year | ].
  apply (matches_app "-" "dd-dd"); [ reflexivity | ].
  apply (matches_app "dd" "-dd"); [ apply matches_pad2 | ].
  apply (matches_app "-" "dd"); [ reflexivity | apply matches_pad2 ].
Qed.

Lemma format_yyyy_MM_dd_shape_witness :
  exists d, JSDate.format_yyyy_MM_dd JSDate.Europe_Vilnius Sample.june10
            = Some d
            /\ matches "dddd-dd-dd" d = true.
Proof.
  apply (format_yyyy_MM_dd_shape JSDate.Europe_Vilnius 1749542400000).
  vm_compute. split; discriminate.
Defined.

Lemma enabled_passes_guard (st : State) :
  submitDisabled st = false -> missingField st = false.
Proof.
  unfold submitDisabled, missingField.
  rewrite !orb_false_iff. tauto.
Qed.

(** X12: a click on the booking button while it is enabled never ends in
    the validation message: the run sets the loading flag, clears the error
    and, the selected date being valid, issues the webhook call before
    anything else can happen. *)
Theorem enabled_click_reaches_webhook (w : World) (st : State) (d : string) :
  submitDisabled st = false ->
  JSDate.format_yyyy_MM_dd (localTZ w) (selectedDate st) = Some d ->
  missingField st = false
  /\ hd [] (segments (trace (handleBooking w st)))
     = [PreventDefault; SetLoading true; SetError "";
        CallFetch webhookURL (webhookInit w st)].
Proof.
  intros Hen Hdate.
  pose proof (enabled_passes_guard st Hen) as Hguard.
  split; [ assumption | ].
  rewrite (handleBooking_validated w st d Hguard Hdate).
  destruct (fetch w webhookURL (webhookInit w st)) as [resp | e];
    [ | reflexivity ].
  destruct (createBooking w (submittedRecord w st d)) as [[] | e];
    reflexivity.
Qed.

Lemma enabled_click_reaches_webhook_witness :
  hd [] (segments (trace (handleBooking Sample.hook_unreachable Sample.ready)))
  = [PreventDefault; SetLoading true; SetError "";
     CallFetch webhookURL (webhookInit Sample.hook_unreachable Sample.ready)].
Proof.
  apply (enabled_click_reaches_webhook Sample.hook_unreachable Sample.ready
           "2025-06-10"); vm_compute; reflexivity.
Defined.

(** ** The widget over time: what always holds *)

Ltac keeps_by_computation :=
  let st := fresh "st" in
  let Ht := fresh "Ht" in
  let Hd := fresh "Hd" in
  intros st [Ht Hd]; unfold run_block; cbn; split; cbn;
  solve [ assumption | discriminate
        | let H := fresh in intros H; now contradiction H ].

Ltac all_keep :=
  repeat (apply Forall_cons; [ keeps_by_computation | ]); apply Forall_nil.

Lemma concat_segments (tr : list Event) : concat (segments tr) = tr.
Proof.
  induction tr as [ | ev tr IH ]; [ reflexivity | ].
  cbn [segments]. destruct (is_network ev).
  - cbn. now rewrite IH.
  - destruct (segments tr) as [ | b bs ]; cbn in *; now rewrite <- IH.
Qed.

Lemma handleBooking_keeps (w : World) (st : State) :
  Forall keeps_coherent (segments (trace (handleBooking w st))).
Proof.
  destruct (missingField st) eqn:Hguard.
  - rewrite (handleBooking_rejected w st Hguard). cbn. all_keep.
  - destruct (JSDate.format_yyyy_MM_dd (localTZ w) (selectedDate st))
      as [d | ] eqn:Hdate.
    + rewrite (handleBooking_validated w st d Hguard Hdate).
      destruct (fetch w webhookURL (webhookInit w st)) as [resp | e].
      * destruct (createBooking w (submittedRecord w st d)) as [[] | e];
          cbn; all_keep.
      * cbn; all_keep.
    + rewrite (handleBooking_invalid_date w st Hguard Hdate). cbn. all_keep.
Qed.

Lemma effect_keeps (w : World) (st : State) :
  Forall keeps_coherent (segments (trace (effect w st))).
Proof.
  unfold effect. destruct (JSString.falsy (selectedCabin st)).
  - cbn. all_keep.
  - rewrite loadTimeSlots_run.
    destruct (JSDate.format_yyyy_MM_dd (localTZ w) (selectedDate st))
      as [d | ].
    + destruct (fetchAvailableTimeSlots w (selectedCabin st) d);
        cbn; all_keep.
    + cbn. all_keep.
Qed.

Lemma enqueue_Forall (P : list (list Event) -> Prop) rest runs :
  P rest -> Forall P runs -> Forall P (enqueue rest runs).
Proof.
  intros Hr Hruns. destruct rest; cbn; [ assumption | now constructor ].
Qed.

Lemma start_sound (m : Action unit) (wd : Widget) :
  Forall keeps_coherent (segments (trace m)) -> sound wd -> sound (start m wd).
Proof.
  intros Hm [Hc Hruns]. unfold start.
  destruct (segments (trace m)) as [ | b rest ]; [ now split | ].
  inversion Hm as [ | ? ? Hb Hrest ]; subst.
  split; cbn.
  - now apply Hb.
  - now apply enqueue_Forall.
Qed.

Lemma clickable_has_cabin (st : State) (slot : TimeSlot) :
  In slot (clickableSlots st) ->
  selectedCabin st <> "" /\ loading st = false
  /\ In slot (timeSlots st) /\ available slot = true.
Proof.
  unfold clickableSlots, timePanel.
  destruct (JSString.falsy (selectedCabin st)) eqn:Hc; [ intros [] | ].
  destruct (loading st); [ intros [] | ].
  intros Hin. apply filter_In in Hin. apply falsy_false_iff in Hc.
  tauto.
Qed.

Lemma step_sound tz signedIn catalogue (wd wd' : Widget) :
  step tz signedIn catalogue wd wd' -> sound wd -> sound wd'.
Proof.
  intros Hstep Hs.
  destruct Hstep as
    [ wd c Hin | wd tv | wd slot Hin | wd value | wd value
    | wd load hook persist Hen | wd load hook persist
    | wd before b rest after_ Hrun ].
  - apply start_sound; [ | assumption ].
    cbn. all_keep.
  - apply start_sound; [ | assumption ].
    cbn. all_keep.
  - destruct Hs as [[Ht Hd] Hruns].
    destruct (clickable_has_cabin _ _ Hin) as [Hc _].
    split; [ split | ]; cbn; auto.
  - apply start_sound; [ | assumption ].
    cbn. all_keep.
  - apply start_sound; [ | assumption ].
    cbn. all_keep.
  - apply start_sound; [ apply handleBooking_keeps | assumption ].
  - apply start_sound; [ apply effect_keeps | assumption ].
  - destruct Hs as [Hc Hruns]. rewrite Hrun in Hruns.
    apply Forall_app in Hruns. destruct Hruns as [Hbefore Hafter].
    inversion Hafter as [ | ? ? Hthis Hafter' ]; subst.
    inversion Hthis as [ | ? ? Hb Hrest ]; subst.
    split; cbn.
    + now apply Hb.
    + apply Forall_app. split; [ assumption | ].
      now apply enqueue_Forall.
Qed.

Lemma resume_head_step tz signedIn catalogue (wd : Widget) b rest others :
  inflight wd = (b :: rest) :: others ->
  step tz signedIn catalogue wd (resume_head wd).
Proof.
  intros H. unfold resume_head. rewrite H.
  apply (step_resume tz signedIn catalogue wd [] b rest others H).
Qed.

Lemma steps_sound tz signedIn catalogue (wd wd' : Widget) :
  steps tz signedIn catalogue wd wd' -> sound wd -> sound wd'.
Proof.
  induction 1 as [ wd | wd wd' wd'' Hsteps IH Hstep ]; intros Hs;
    [ assumption | ].
  eapply step_sound; eauto.
Qed.

Lemma mount_sound (now : Z) : sound (mount now).
Proof.
  split; [ split | ]; cbn; [ intros H; now contradiction H | discriminate
                           | constructor ].
Qed.

(** X13: however the visitor's actions, the effect's reloads and the
    settling of calls interleave, the widget never shows a selected time
    without a selected resource, and its selected date is always a valid
    date. *)
Theorem reachable_coherent tz signedIn catalogue (now : Z) (wd : Widget) :
  reachable tz signedIn catalogue now wd ->
  (selectedTime (current wd) <> "" -> selectedCabin (current wd) <> "")
  /\ selectedDate (current wd) <> None.
Proof.
  intros Hr.
  exact (proj1 (steps_sound tz signedIn catalogue _ _ Hr (mount_sound now))).
Qed.

Lemma picked_time_reachable :
  reachable JSDate.Europe_Vilnius None Sample.catalogue Visit.now
    Visit.picked_time.
Proof.
  unfold reachable.
  apply steps_more with (wd' := Visit.slots_shown).
  - apply steps_more with (wd' := Visit.loading_slots).
    + apply steps_more with (wd' := Visit.picked_cabin).
      * apply steps_more with (wd' := mount Visit.now);
          [ apply steps_none | ].
        apply (step_cabin _ _ _ (mount Visit.now)
                 {| id := "sauna-a"; name := "Sauna A"; description := "";
                    pricePerMinute := 1 |}).
        left. reflexivity.
      * apply (step_effect JSDate.Europe_Vilnius None Sample.catalogue
                 Visit.picked_cabin (fun _ _ => Normal Sample.slots)
                 (fun _ _ => Normal {| http_status := 200 |})
                 (fun _ => Normal tt)).
    + eapply resume_head_step. vm_compute. reflexivity.
  - apply (step_slot _ _ _ Visit.slots_shown
             {| time := "14:30"; available := true |}).
    vm_compute. left. reflexivity.
Defined.

Lemma reachable_coherent_witness :
  selectedTime (current Visit.picked_time) = "14:30"
  /\ selectedCabin (current Visit.picked_time) <> "".
Proof.
  split; [ reflexivity | ].
  apply (proj1 (reachable_coherent JSDate.Europe_Vilnius None Sample.catalogue
                  Visit.now Visit.picked_time picked_time_reachable)).
  discriminate.
Defined.

Lemma count_app (f : Event -> bool) (l1 l2 : list Event) :
  count f (l1 ++ l2) = (count f l1 + count f l2)%nat.
Proof.
  unfold count. now rewrite filter_app, length_app.
Qed.

Lemma awaiting_app (f : Event -> bool) (r1 r2 : list (list (list Event))) :
  awaiting f (r1 ++ r2) = (awaiting f r1 + awaiting f r2)%nat.
Proof.
  unfold awaiting. now rewrite !concat_app, count_app.
Qed.

Lemma awaiting_cons (f : Event -> bool) run runs :
  awaiting f (run :: runs) = (count f (concat run) + awaiting f runs)%nat.
Proof.
  unfold awaiting. cbn [concat]. now rewrite concat_app, count_app.
Qed.

Lemma awaiting_enqueue (f : Event -> bool) rest runs :
  awaiting f (enqueue rest runs)
  = (count f (concat rest) + awaiting f runs)%nat.
Proof.
  destruct rest as [ | b rest ]; [ reflexivity | ].
  cbn [enqueue]. apply awaiting_cons.
Qed.

Lemma start_accounted (m : Action unit) (wd : Widget) :
  notifies_first m -> accounted wd -> accounted (start m wd).
Proof.
  unfold notifies_first, start, accounted.
  destruct (segments (trace m)) as [ | b rest ]; [ tauto | ].
  cbn [log inflight]. intros Hm Hwd.
  rewrite !count_app, awaiting_enqueue. lia.
Qed.

Lemma handleBooking_notifies_first (w : World) (st : State) :
  notifies_first (handleBooking w st).
Proof.
  unfold notifies_first.
  destruct (missingField st) eqn:Hguard.
  - rewrite (handleBooking_rejected w st Hguard). unfold count. cbn. lia.
  - destruct (JSDate.format_yyyy_MM_dd (localTZ w) (selectedDate st))
      as [d | ] eqn:Hdate.
    + rewrite (handleBooking_validated w st d Hguard Hdate).
      destruct (fetch w webhookURL (webhookInit w st)) as [resp | e].
      * destruct (createBooking w (submittedRecord w st d)) as [[] | e];
          unfold count; cbn; lia.
      * unfold count; cbn; lia.
    + rewrite (handleBooking_invalid_date w st Hguard Hdate). unfold count. cbn. lia.
Qed.

Lemma effect_notifies_first (w : World) (st : State) :
  notifies_first (effect w st).
Proof.
  unfold notifies_first, effect.
  destruct (JSString.falsy (selectedCabin st)); [ unfold count; cbn; lia | ].
  rewrite loadTimeSlots_run.
  destruct (JSDate.format_yyyy_MM_dd (localTZ w) (selectedDate st)) as [d | ];
    [ | unfold count; cbn; lia ].
  destruct (fetchAvailableTimeSlots w (selectedCabin st) d); unfold count; cbn; lia.
Qed.

Lemma step_accounted tz signedIn catalogue (wd wd' : Widget) :
  step tz signedIn catalogue wd wd' -> accounted wd -> accounted wd'.
Proof.
  intros Hstep Hwd.
  destruct Hstep as
    [ wd c Hin | wd tv | wd slot Hin | wd value | wd value
    | wd load hook persist Hen | wd load hook persist
    | wd before b rest after_ Hrun ];
    try (apply start_accounted; [ | assumption ]).
  - unfold notifies_first. unfold count. cbn. lia.
  - unfold notifies_first. unfold count. cbn. lia.
  - unfold notifies_first. unfold count. cbn. lia.
  - unfold notifies_first. unfold count. cbn. lia.
  - unfold notifies_first. unfold count. cbn. lia.
  - apply handleBooking_notifies_first.
  - apply effect_notifies_first.
  - unfold accounted in *. cbn [log inflight]. rewrite Hrun in Hwd.
    rewrite awaiting_app, awaiting_cons in Hwd. cbn [concat] in Hwd.
    rewrite !count_app in Hwd.
    rewrite !count_app, awaiting_app, awaiting_enqueue. lia.
Qed.

Lemma steps_accounted tz signedIn catalogue (wd wd' : Widget) :
  steps tz signedIn catalogue wd wd' -> accounted wd -> accounted wd'.
Proof.
  induction 1 as [ wd | wd wd' wd'' Hsteps IH Hstep ]; intros Hwd;
    [ assumption | ].
  eapply step_accounted; eauto.
Qed.

(** X15: at every moment of every visit, the bookings handed to
    persistence so far do not outnumber the webhook notifications sent so
    far, whichever way concurrent submissions interleave: no booking is
    persisted whose notification was not sent first. *)
Theorem persisted_never_outnumber_notified
    tz signedIn catalogue (now : Z) (wd : Widget) :
  reachable tz signedIn catalogue now wd ->
  (count is_persist_call (log wd) <= count is_webhook_call (log wd))%nat.
Proof.
  intros Hr.
  assert (H : accounted wd).
  { apply (steps_accounted tz signedIn catalogue _ _ Hr).
    unfold accounted, awaiting, count. cbn. lia. }
  unfold accounted in H. lia.
Qed.

Lemma booked_reachable :
  reachable JSDate.Europe_Vilnius None Sample.catalogue Visit.now Visit.booked.
Proof.
  unfold reachable.
  apply steps_more with (wd' := Visit.persisting).
  - apply steps_more with (wd' := Visit.submitting).
    + apply steps_more with (wd' := Visit.mailed).
      * apply steps_more with (wd' := Visit.named).
        -- apply steps_more with (wd' := Visit.picked_time);
             [ exact picked_time_reachable | ].
           apply step_fullName.
        -- apply step_email.
      * apply (step_submit JSDate.Europe_Vilnius None Sample.catalogue
                 Visit.mailed (fun _ _ => Normal Sample.slots)
                 (fun _ _ => Normal {| http_status := 200 |})
                 (fun _ => Normal tt)).
        vm_compute. reflexivity.
    + eapply resume_head_step. vm_compute. reflexivity.
  - eapply resume_head_step. vm_compute. reflexivity.
Defined.

Lemma persisted_never_outnumber_notified_witness :
  count is_persist_call (log Visit.booked) = 1%nat
  /\ (count is_persist_call (log Visit.booked)
      <= count is_webhook_call (log Visit.booked))%nat.
Proof.
  split; [ reflexivity | ].
  exact (persisted_never_outnumber_notified JSDate.Europe_Vilnius None
           Sample.catalogue Visit.now Visit.booked booked_reachable).
Defined.

(** ** The widget over time: what can happen *)







(** ** Further interplay of the handlers *)

(** X17: whether a failed submission shows anything depends on what was
    thrown: the error banner carries the thrown [Error]'s message or, for
    any other thrown value, the fallback text, and it is absent exactly when
    an [Error] with an empty message was thrown. *)
Theorem failure_banner (w : World) (st : State) (d : string) (e : Thrown) :
  missingField st = false ->
  JSDate.format_yyyy_MM_dd (localTZ w) (selectedDate st) = Some d ->
  fetch w webhookURL (webhookInit w st) = Throw e
  \/ (exists resp, fetch w webhookURL (webhookInit w st) = Normal resp
                   /\ createBooking w (submittedRecord w st d) = Throw e) ->
  let st' := after st (handleBooking w st) in
  (errorBanner st' = None <-> e = ErrorObject "")
  /\ (forall text, errorBanner st' = Some text -> text = errorText e).
Proof.
  intros Hguard Hdate Hfail st'.
  assert (E : error st' = errorText e).
  { unfold st', after.
    rewrite (handleBooking_validated w st d Hguard Hdate).
    destruct Hfail as [Hhook | [resp [Hhook Hpersist]]].
    - rewrite Hhook. reflexivity.
    - rewrite Hhook, Hpersist. reflexivity. }
  unfold errorBanner. rewrite E.
  destruct e as [m | v]; cbn.
  - destruct m as [ | c m ]; cbn; split.
    + tauto.
    + intros text H. discriminate.
    + split; intros H; discriminate.
    + intros text H. now injection H as <-.
  - split.
    + split; intros H; discriminate.
    + intros text H. now injection H as <-.
Qed.

Lemma failure_banner_witness :
  errorBanner (after Sample.ready
                 (handleBooking Sample.persist_fails_silently Sample.ready))
  = None.
Proof.
  pose proof (failure_banner Sample.persist_fails_silently Sample.ready
                "2025-06-10" (ErrorObject "")) as H.
  destruct H as [Hnone _].
  - reflexivity.
  - vm_compute. reflexivity.
  - right. exists {| http_status := 200 |}. split; reflexivity.
  - apply Hnone. reflexivity.
Defined.

(** X18: picking another date keeps the selected time.  Once the reload for
    the new date has resolved, the slot list is the new date's, whatever it
    offers, the loading flag is clear and the selected time is what it was;
    the booking button is then enabled exactly when resource, time, full
    name and email are filled in, so a time the new date does not offer can
    still be submitted. *)
Theorem date_change_keeps_time
    (w : World) (st : State) (tv' : Z) (d' : string) (slots : list TimeSlot) :
  selectedCabin st <> "" ->
  JSDate.format_yyyy_MM_dd (localTZ w) (Some tv') = Some d' ->
  fetchAvailableTimeSlots w (selectedCabin st) d' = Normal slots ->
  let st1 := after st (emit (SetSelectedDate (Some tv'))) in
  let st2 := after st1 (effect w st1) in
  selectedDate st2 = Some tv'
  /\ timeSlots st2 = slots
  /\ selectedTime st2 = selectedTime st
  /\ loading st2 = false
  /\ submitDisabled st2 = missingField st.
Proof.
  intros Hc Hdate Hload st1 st2.
  assert (E : st2 =
    {| selectedDate := Some tv'; selectedCabin := selectedCabin st;
       selectedTime := selectedTime st; loading := false;
       timeSlots := slots; error := ""; fullName := fullName st;
       email := email st |}).
  { assert (E1 : st1 =
      {| selectedDate := Some tv'; selectedCabin := selectedCabin st;
         selectedTime := selectedTime st; loading := loading st;
         timeSlots := timeSlots st; error := error st;
         fullName := fullName st; email := email st |}) by reflexivity.
    unfold st2. rewrite E1. unfold after, effect.
    cbn [selectedCabin selectedDate].
    apply falsy_false_iff in Hc. rewrite Hc.
    rewrite loadTimeSlots_run, Hdate, Hload. reflexivity. }
  rewrite E. unfold submitDisabled, missingField. cbn.
  repeat split.
Qed.

Lemma date_change_keeps_time_witness :
  let w := Sample.world JSDate.Europe_Vilnius
             (Normal [ {| time := "09:00"; available := true |};
                       {| time := "14:30"; available := false |} ])
             (Normal {| http_status := 200 |}) (Normal tt) in
  let st1 := after Sample.ready (emit (SetSelectedDate (Some 1749628800000))) in
  let st2 := after st1 (effect w st1) in
  timeSlots Sample.ready = Sample.slots
  /\ timeSlots st2 = [ {| time := "09:00"; available := true |};
                       {| time := "14:30"; available := false |} ]
  /\ selectedTime st2 = "14:30"
  /\ submitDisabled st2 = false.
Proof.
  pose proof (date_change_keeps_time
                (Sample.world JSDate.Europe_Vilnius
                   (Normal [ {| time := "09:00"; available := true |};
                             {| time := "14:30"; available := false |} ])
                   (Normal {| http_status := 200 |}) (Normal tt))
                Sample.ready 1749628800000 "2025-06-11"
                [ {| time := "09:00"; available := true |};
                  {| time := "14:30"; available := false |} ]) as H.
  destruct H as [_ [Hs [Ht [_ Hd]]]].
  - discriminate.
  - vm_compute. reflexivity.
  - reflexivity.
  - cbv zeta. rewrite Hs, Ht, Hd. repeat split.
Defined.

(** ** The widget over time: where a selected time comes from *)

Lemma run_block_cons (ev : Event) (b : list Event) (st : State) :
  run_block (ev :: b) st = run_block b (apply_event st ev).
Proof.
  reflexivity.
Qed.

Lemma run_block_time (b : list Event) :
  clears_only b ->
  forall st, selectedTime (run_block b st) = selectedTime st
             \/ selectedTime (run_block b st) = "".
Proof.
  induction b as [ | ev b IH ]; intros Hb st; [ now left | ].
  rewrite run_block_cons.
  assert (Hb' : clears_only b).
  { intros t Hin. apply Hb. now right. }
  destruct (IH Hb' (apply_event st ev)) as [E | E]; [ | now right ].
  rewrite E.
  destruct ev; cbn; try now left.
  right. apply Hb. now left.
Qed.

Lemma run_block_slots (b : list Event) :
  forall st slot,
    In slot (timeSlots (run_block b st)) ->
    In slot (timeSlots st)
    \/ exists slots, In (SetTimeSlots slots) b /\ In slot slots.
Proof.
  induction b as [ | ev b IH ]; intros st slot Hin; [ now left | ].
  rewrite run_block_cons in Hin.
  destruct (IH _ _ Hin) as [Hold | [slots [Hb Hs]]].
  - destruct ev; cbn in Hold; try now left.
    right. exists l. split; [ now left | assumption ].
  - right. exists slots. split; [ now right | assumption ].
Qed.

Lemma offered_more (done b : list Event) (t : string) :
  offered done t -> offered (done ++ b) t.
Proof.
  intros [slots [slot [Hin H]]].
  exists slots, slot. split; [ | exact H ].
  apply in_or_app. now left.
Qed.

(** A block that selects no time, run on a traced widget. *)
Lemma block_traced (b : list Event) (wd : Widget) others :
  clears_only b -> traced wd ->
  Forall (Forall clears_only) others ->
  traced {| current := run_block b (current wd);
            inflight := others;
            log := (log wd ++ b)%list |}.
Proof.
  intros Hb [Hslots [Htime _]] Hothers.
  split; [ | split ]; cbn [current inflight log].
  - intros slot Hin.
    destruct (run_block_slots b _ _ Hin) as [Hold | [slots [Hin' Hs]]].
    + destruct (Hslots slot Hold) as [slots [Hin' Hs]].
      exists slots. split; [ | assumption ].
      apply in_or_app. now left.
    + exists slots. split; [ | assumption ].
      apply in_or_app. now right.
  - intros Hne.
    destruct (run_block_time b Hb (current wd)) as [E | E];
      [ | now contradiction Hne ].
    rewrite E in *. apply offered_more. now apply Htime.
  - assumption.
Qed.

Lemma start_traced (m : Action unit) (wd : Widget) :
  Forall clears_only (segments (trace m)) -> traced wd -> traced (start m wd).
Proof.
  intros Hm Hwd. unfold start.
  destruct (segments (trace m)) as [ | b rest ]; [ assumption | ].
  inversion Hm as [ | ? ? Hb Hrest ]; subst.
  apply block_traced; [ assumption | assumption | ].
  apply enqueue_Forall; [ assumption | apply Hwd ].
Qed.

Ltac clears_by_computation :=
  let t := fresh "t" in
  let Hin := fresh "Hin" in
  intros t Hin; cbn in Hin;
  repeat (let H := fresh in
          destruct Hin as [H | Hin];
          [ try discriminate H; try (injection H as <-; reflexivity) | ]);
  contradiction.

Ltac all_clear :=
  repeat (apply Forall_cons; [ clears_by_computation | ]); apply Forall_nil.

Lemma handleBooking_clears (w : World) (st : State) :
  Forall clears_only (segments (trace (handleBooking w st))).
Proof.
  destruct (missingField st) eqn:Hguard.
  - rewrite (handleBooking_rejected w st Hguard). cbn. all_clear.
  - destruct (JSDate.format_yyyy_MM_dd (localTZ w) (selectedDate st))
      as [d | ] eqn:Hdate.
    + rewrite (handleBooking_validated w st d Hguard Hdate).
      destruct (fetch w webhookURL (webhookInit w st)) as [resp | e].
      * destruct (createBooking w (submittedRecord w st d)) as [[] | e];
          cbn; all_clear.
      * cbn; all_clear.
    + rewrite (handleBooking_invalid_date w st Hguard Hdate). cbn. all_clear.
Qed.

Lemma effect_clears (w : World) (st : State) :
  Forall clears_only (segments (trace (effect w st))).
Proof.
  unfold effect. destruct (JSString.falsy (selectedCabin st)).
  - cbn. all_clear.
  - rewrite loadTimeSlots_run.
    destruct (JSDate.format_yyyy_MM_dd (localTZ w) (selectedDate st))
      as [d | ].
    + destruct (fetchAvailableTimeSlots w (selectedCabin st) d);
        cbn; all_clear.
    + cbn. all_clear.
Qed.

Lemma step_traced tz signedIn catalogue (wd wd' : Widget) :
  step tz signedIn catalogue wd wd' -> traced wd -> traced wd'.
Proof.
  intros Hstep Hwd.
  destruct Hstep as
    [ wd c Hin | wd tv | wd slot Hin | wd value | wd value
    | wd load hook persist Hen | wd load hook persist
    | wd before b rest after_ Hrun ].
  - apply start_traced; [ cbn; all_clear | assumption ].
  - apply start_traced; [ cbn; all_clear | assumption ].
  - destruct Hwd as [Hslots [Htime Hruns]].
    destruct (clickable_has_cabin _ _ Hin) as [_ [_ [Hshown Hav]]].
    split; [ | split ]; cbn.
    + intros s Hs. destruct (Hslots s Hs) as [slots [Hl Hs']].
      exists slots. split; [ | assumption ].
      apply in_or_app. now left.
    + intros _. destruct (Hslots slot Hshown) as [slots [Hl Hs']].
      exists slots, slot. repeat split; try assumption.
      apply in_or_app. now left.
    + assumption.
  - apply start_traced; [ cbn; all_clear | assumption ].
  - apply start_traced; [ cbn; all_clear | assumption ].
  - apply start_traced; [ apply handleBooking_clears | assumption ].
  - apply start_traced; [ apply effect_clears | assumption ].
  - pose proof Hwd as [_ [_ Hruns]]. rewrite Hrun in Hruns.
    apply Forall_app in Hruns. destruct Hruns as [Hbefore Hafter].
    inversion Hafter as [ | ? ? Hthis Hafter' ]; subst.
    inversion Hthis as [ | ? ? Hb Hrest ]; subst.
    apply block_traced; [ assumption | assumption | ].
    apply Forall_app. split; [ assumption | ].
    now apply enqueue_Forall.
Qed.

Lemma steps_traced tz signedIn catalogue (wd wd' : Widget) :
  steps tz signedIn catalogue wd wd' -> traced wd -> traced wd'.
Proof.
  induction 1 as [ wd | wd wd' wd'' Hsteps IH Hstep ]; intros Hwd;
    [ assumption | ].
  eapply step_traced; eauto.
Qed.

(** X19: at every moment of every visit, a selected time is the label of a
    slot that some availability answer received so far marked available,
    though not necessarily the answer for the resource and date selected
    now. *)
Theorem selected_time_was_offered
    tz signedIn catalogue (now : Z) (wd : Widget) :
  reachable tz signedIn catalogue now wd ->
  selectedTime (current wd) <> "" ->
  exists slots slot,
    In (SetTimeSlots slots) (log wd) /\ In slot slots
    /\ available slot = true /\ time slot = selectedTime (current wd).
Proof.
  intros Hr Hne.
  assert (H : traced wd).
  { apply (steps_traced tz signedIn catalogue _ _ Hr).
    split; [ | split ]; cbn.
    - intros slot [].
    - intros H. now contradiction H.
    - constructor. }
  exact (proj1 (proj2 H) Hne).
Qed.

Lemma selected_time_was_offered_witness :
  exists slots slot,
    In (SetTimeSlots slots) (log Visit.picked_time) /\ In slot slots
    /\ available slot = true
    /\ time slot = selectedTime (current Visit.picked_time).
Proof.
  apply (selected_time_was_offered JSDate.Europe_Vilnius None Sample.catalogue
           Visit.now Visit.picked_time picked_time_reachable).
  vm_compute. discriminate.
Defined.
